(** * Build service: lifecycle core, handlers and PostgreSQL store

    A shallow embedding of the Go build service (package [main]): the
    [BuildRequest] record, the [DatabaseInterface] persistence port with its
    PostgreSQL implementation, the Prometheus metrics the service updates
    and their registration, the health probe, the three build handlers, the
    background task [processBuild], and the service at work on a sequence
    of requests and task runs.

    Conventions.
    - A Go [string] is a [string] of bytes; [len] is [String.length].
    - A Go [error] is represented by its [Error()] text; [None] is [nil].
    - A [time.Time] is an integer instant; the clock is an oracle read by
      every [time.Now()] call, so two calls may return different instants.
    - A gauge holds an integer (the service only ever adds or subtracts 1);
      a duration is the integer difference of two instants.
    - Handlers and the task are written in a state monad over [World]. *)

From Stdlib Require Import ZArith String Ascii List Lia Bool.
From stdpp Require Import base gmap strings list sorting.

Open Scope string_scope.
Open Scope list_scope.
Open Scope Z_scope.

(** ** Data model *)

Definition Time := Z.
Definition error := string.

Record BuildRequest := mkBuildRequest {
  ID : Z;
  ProjectName : string;
  GitURL : string;
  Branch : string;
  Status : string;
  CreatedAt : Time;
  UpdatedAt : Time
}.

(** The zero value [BuildRequest{}]. *)
Definition zeroBuildRequest : BuildRequest :=
  mkBuildRequest 0 "" "" "" "" 0 0.

Definition set_ID (v : Z) (b : BuildRequest) : BuildRequest :=
  mkBuildRequest v (ProjectName b) (GitURL b) (Branch b) (Status b)
                 (CreatedAt b) (UpdatedAt b).
Definition set_Branch (v : string) (b : BuildRequest) : BuildRequest :=
  mkBuildRequest (ID b) (ProjectName b) (GitURL b) v (Status b)
                 (CreatedAt b) (UpdatedAt b).
Definition set_Status (v : string) (b : BuildRequest) : BuildRequest :=
  mkBuildRequest (ID b) (ProjectName b) (GitURL b) (Branch b) v
                 (CreatedAt b) (UpdatedAt b).
Definition set_CreatedAt (v : Time) (b : BuildRequest) : BuildRequest :=
  mkBuildRequest (ID b) (ProjectName b) (GitURL b) (Branch b) (Status b)
                 v (UpdatedAt b).
Definition set_UpdatedAt (v : Time) (b : BuildRequest) : BuildRequest :=
  mkBuildRequest (ID b) (ProjectName b) (GitURL b) (Branch b) (Status b)
                 (CreatedAt b) v.

(** The lifecycle states, as the status strings the code writes. *)
Definition is_terminal (s : string) : bool :=
  String.eqb s "success" || String.eqb s "failed".

(** ** The persistence port: [DatabaseInterface]

    Each method takes the store and returns the Go results together with the
    store afterwards.  [GetBuild] returns a pointer and an error, both of
    which may be non-nil, hence the pair of options. *)

Class DatabaseInterface (DB : Type) := {
  CreateBuild : BuildRequest -> DB -> (Z * option error) * DB;
  GetBuild : Z -> DB -> (option BuildRequest * option error) * DB;
  ListBuilds : DB -> (list BuildRequest * option error) * DB;
  UpdateBuildStatus : Z -> string -> DB -> option error * DB;
  Ping : DB -> option error * DB
}.

(** ** PostgreSQL implementation

    The [builds] table is the list of its rows in insertion order.  What the
    server does with the n-th statement it receives is an oracle: it either
    refuses it with an error (connection lost, ...), leaving the table as it
    is, or runs it at the instant [NOW]. *)

Module Pg.

Record Reply := mkReply {
  refuse : option error;
  NOW : Time
}.

Record PostgreSQLDatabase := mkPg {
  builds : list BuildRequest;
  builds_id_seq : Z;
  statements : nat;
  server : nat -> Reply
}.

Definition reply (pg : PostgreSQLDatabase) : Reply :=
  server pg (statements pg).

Definition after (rows : list BuildRequest) (seq : Z)
    (pg : PostgreSQLDatabase) : PostgreSQLDatabase :=
  mkPg rows seq (S (statements pg)) (server pg).

(** [INSERT INTO builds (...) VALUES (...) RETURNING id] *)
Definition sql_insert (rows : list BuildRequest) (seq : Z)
    (b : BuildRequest) : list BuildRequest :=
  rows ++ [set_ID seq b].

(** [SELECT ... FROM builds WHERE id = $1], first row *)
Definition sql_select_by_id (rows : list BuildRequest) (id : Z)
    : option BuildRequest :=
  List.find (fun r => ID r =? id) rows.

(** [ORDER BY created_at DESC] *)
Definition newer_first (a b : BuildRequest) : Prop :=
  CreatedAt b <= CreatedAt a.

#[global] Instance newer_first_dec a b : Decision (newer_first a b).
Proof. unfold newer_first. apply _. Defined.

(** [SELECT ... FROM builds ORDER BY created_at DESC LIMIT 100] *)
Definition sql_select_recent (rows : list BuildRequest)
    : list BuildRequest :=
  take 100 (merge_sort newer_first rows).

(** [UPDATE builds SET status = $1, updated_at = NOW() WHERE id = $2] *)
Definition sql_update_status (now : Time) (status : string) (id : Z)
    (r : BuildRequest) : BuildRequest :=
  if ID r =? id then set_UpdatedAt now (set_Status status r) else r.

Definition pgCreateBuild (build : BuildRequest) (pg : PostgreSQLDatabase)
    : (Z * option error) * PostgreSQLDatabase :=
  match refuse (reply pg) with
  | Some e => ((0, Some e), after (builds pg) (builds_id_seq pg) pg)
  | None =>
      let id := builds_id_seq pg in
      ((id, None), after (sql_insert (builds pg) id build) (id + 1) pg)
  end.

Definition pgGetBuild (id : Z) (pg : PostgreSQLDatabase)
    : (option BuildRequest * option error) * PostgreSQLDatabase :=
  let pg' := after (builds pg) (builds_id_seq pg) pg in
  match refuse (reply pg) with
  | Some e => ((Some zeroBuildRequest, Some e), pg')
  | None =>
      match sql_select_by_id (builds pg) id with
      | None => ((None, Some "build not found"), pg')
      | Some row => ((Some row, None), pg')
      end
  end.

Definition pgListBuilds (pg : PostgreSQLDatabase)
    : (list BuildRequest * option error) * PostgreSQLDatabase :=
  let pg' := after (builds pg) (builds_id_seq pg) pg in
  match refuse (reply pg) with
  | Some e => (([], Some e), pg')
  | None => ((sql_select_recent (builds pg), None), pg')
  end.

Definition pgUpdateBuildStatus (id : Z) (status : string)
    (pg : PostgreSQLDatabase) : option error * PostgreSQLDatabase :=
  match refuse (reply pg) with
  | Some e => (Some e, after (builds pg) (builds_id_seq pg) pg)
  | None =>
      (None,
       after (sql_update_status (NOW (reply pg)) status id <$> builds pg)
             (builds_id_seq pg) pg)
  end.

Definition pgPing (pg : PostgreSQLDatabase)
    : option error * PostgreSQLDatabase :=
  (refuse (reply pg), after (builds pg) (builds_id_seq pg) pg).

#[global] Instance PostgreSQL : DatabaseInterface PostgreSQLDatabase := {
  CreateBuild := pgCreateBuild;
  GetBuild := pgGetBuild;
  ListBuilds := pgListBuilds;
  UpdateBuildStatus := pgUpdateBuildStatus;
  Ping := pgPing
}.

End Pg.

(** ** Metrics *)

Record Metrics := mkMetrics {
  BuildsTotal : gmap string nat;        (* CounterVec, keyed by "status" *)
  BuildDuration : list (string * Z);    (* HistogramVec observations, keyed by "project" *)
  ActiveBuilds : Z;                     (* Gauge *)
  HealthCheck : Z                       (* Gauge *)
}.

(** [m.BuildsTotal.WithLabelValues(l).Inc()] *)
Definition BuildsTotal_Inc (l : string) (m : Metrics) : Metrics :=
  mkMetrics (<[l := S (default 0%nat (BuildsTotal m !! l))]> (BuildsTotal m))
            (BuildDuration m) (ActiveBuilds m) (HealthCheck m).

(** [m.BuildDuration.WithLabelValues(l).Observe(d)] *)
Definition BuildDuration_Observe (l : string) (d : Z) (m : Metrics) : Metrics :=
  mkMetrics (BuildsTotal m) (BuildDuration m ++ [(l, d)])
            (ActiveBuilds m) (HealthCheck m).

(** [m.ActiveBuilds.Inc()] and [m.ActiveBuilds.Dec()] *)
Definition ActiveBuilds_Inc (m : Metrics) : Metrics :=
  mkMetrics (BuildsTotal m) (BuildDuration m) (ActiveBuilds m + 1)
            (HealthCheck m).
Definition ActiveBuilds_Dec (m : Metrics) : Metrics :=
  mkMetrics (BuildsTotal m) (BuildDuration m) (ActiveBuilds m - 1)
            (HealthCheck m).

(** ** What a handler or task can observe and change *)

Inductive Arg :=
| ArgErr (e : error)
| ArgInt (n : Z)
| ArgStr (s : string).

(** One [log.Printf(format, args...)] call. *)
Inductive LogLine := Printf (format : string) (args : list Arg).

(** One call through the persistence port, with what it returned. *)
Inductive PortCall :=
| CalledCreateBuild (build : BuildRequest) (id : Z) (err : option error)
| CalledGetBuild (id : Z) (build : option BuildRequest) (err : option error)
| CalledListBuilds (rows : list BuildRequest) (err : option error)
| CalledUpdateBuildStatus (id : Z) (status : string) (err : option error).

Inductive Body :=
| PlainText (msg : string)
| JsonBuild (b : BuildRequest)
| JsonNull
| JsonBuilds (l : list BuildRequest).

Record Response := mkResponse {
  code : Z;
  content_type : string;
  body : Body
}.

(** [http.Error(w, msg, code)] *)
Definition http_Error (msg : string) (c : Z) : Response :=
  mkResponse c "text/plain; charset=utf-8" (PlainText msg).

Definition StatusOK : Z := 200.
Definition StatusCreated : Z := 201.
Definition StatusBadRequest : Z := 400.
Definition StatusNotFound : Z := 404.
Definition StatusInternalServerError : Z := 500.

Section Service.

Context {DB : Type} `{DatabaseInterface DB}.

(** The [BuildService] ([db], [metrics]) together with the process around
    it: the clock, the log, the persistence calls made so far, the tasks
    started with [go] and the [time.Sleep] calls. *)
Record World := mkWorld {
  db : DB;
  metrics : Metrics;
  clock : nat -> Time;
  reads : nat;
  logged : list LogLine;
  port_calls : list PortCall;
  goroutines : list BuildRequest;
  slept : list Z
}.

Definition M (A : Type) : Type := World -> A * World.

Definition ret {A} (a : A) : M A := fun w => (a, w).
Definition bind {A B} (c : M A) (k : A -> M B) : M B :=
  fun w => let '(a, w') := c w in k a w'.

Notation "'do' x <- c ; k" := (bind c (fun x => k))
  (at level 10, x name, c at level 100, k at level 200).

(** [time.Now()] *)
Definition time_Now : M Time := fun w =>
  (clock w (reads w),
   mkWorld (db w) (metrics w) (clock w) (S (reads w)) (logged w)
           (port_calls w) (goroutines w) (slept w)).

(** [time.Sleep(d)], [d] in seconds *)
Definition time_Sleep (d : Z) : M unit := fun w =>
  (tt, mkWorld (db w) (metrics w) (clock w) (reads w) (logged w)
               (port_calls w) (goroutines w) (slept w ++ [d])).

Definition log_Printf (format : string) (args : list Arg) : M unit := fun w =>
  (tt, mkWorld (db w) (metrics w) (clock w) (reads w)
               (logged w ++ [Printf format args])
               (port_calls w) (goroutines w) (slept w)).

Definition with_metrics (f : Metrics -> Metrics) : M unit := fun w =>
  (tt, mkWorld (db w) (f (metrics w)) (clock w) (reads w) (logged w)
               (port_calls w) (goroutines w) (slept w)).

(** [go bs.processBuild(build)] *)
Definition go_processBuild (build : BuildRequest) : M unit := fun w =>
  (tt, mkWorld (db w) (metrics w) (clock w) (reads w) (logged w)
               (port_calls w) (goroutines w ++ [build]) (slept w)).

Definition port {A} (call : DB -> A * DB) (record : A -> PortCall) : M A :=
  fun w =>
    let '(a, d) := call (db w) in
    (a, mkWorld d (metrics w) (clock w) (reads w) (logged w)
                (port_calls w ++ [record a]) (goroutines w) (slept w)).

Definition db_CreateBuild (build : BuildRequest) : M (Z * option error) :=
  port (CreateBuild build) (fun r => CalledCreateBuild build (fst r) (snd r)).
Definition db_GetBuild (id : Z) : M (option BuildRequest * option error) :=
  port (GetBuild id) (fun r => CalledGetBuild id (fst r) (snd r)).
Definition db_ListBuilds : M (list BuildRequest * option error) :=
  port ListBuilds (fun r => CalledListBuilds (fst r) (snd r)).
Definition db_UpdateBuildStatus (id : Z) (status : string)
    : M (option error) :=
  port (UpdateBuildStatus id status) (CalledUpdateBuildStatus id status).

(** *** [createBuildHandler]

    [decoded] is the result of decoding the request body into a
    [BuildRequest]: [None] when decoding fails, otherwise the struct, in
    which every field absent from the body has its zero value and every
    field present (also [id], [status] and the timestamps) the value sent. *)
Definition createBuildHandler (decoded : option BuildRequest) : M Response :=
  match decoded with
  | None => ret (http_Error "Invalid request body" StatusBadRequest)
  | Some req =>
      if String.eqb (ProjectName req) "" || String.eqb (GitURL req) "" then
        ret (http_Error "project_name and git_url are required"
                        StatusBadRequest)
      else
        let req :=
          if String.eqb (Branch req) "" then set_Branch "main" req else req in
        let req := set_Status "queued" req in
        do t <- time_Now;
        let req := set_CreatedAt t req in
        do t <- time_Now;
        let req := set_UpdatedAt t req in
        do r <- db_CreateBuild req;
        match snd r with
        | Some e =>
            do _ <- log_Printf "Error creating build: %v" [ArgErr e];
            ret (http_Error "Internal server error"
                            StatusInternalServerError)
        | None =>
            let req := set_ID (fst r) req in
            do _ <- with_metrics (BuildsTotal_Inc "queued");
            do _ <- with_metrics ActiveBuilds_Inc;
            do _ <- go_processBuild req;
            ret (mkResponse StatusCreated "application/json" (JsonBuild req))
        end
  end.

(** [strconv.Atoi]: an optional sign, then one or more decimal digits, the
    value within the range of a 64-bit [int]. *)
Definition is_digit (c : ascii) : bool :=
  ((48 <=? nat_of_ascii c) && (nat_of_ascii c <=? 57))%nat.

Fixpoint digits (s : string) (acc : Z) : option Z :=
  match s with
  | EmptyString => Some acc
  | String c rest =>
      if is_digit c
      then digits rest (acc * 10 + (Z.of_nat (nat_of_ascii c) - 48))
      else None
  end.

Definition Atoi (s : string) : option Z :=
  let '(neg, rest) :=
    match s with
    | String "-"%char r => (true, r)
    | String "+"%char r => (false, r)
    | _ => (false, s)
    end in
  match rest with
  | EmptyString => None
  | _ =>
      match digits rest 0 with
      | None => None
      | Some n =>
          let v := if neg : bool then - n else n in
          if (- 2 ^ 63 <=? v) && (v <? 2 ^ 63) then Some v else None
      end
  end.

(** *** [getBuildHandler]; [vars] is [mux.Vars(r)] *)
Definition getBuildHandler (vars : gmap string string) : M Response :=
  match vars !! "id" with
  | None => ret (http_Error "Build ID is required" StatusBadRequest)
  | Some idStr =>
      match Atoi idStr with
      | None => ret (http_Error "Invalid build ID" StatusBadRequest)
      | Some id =>
          do r <- db_GetBuild id;
          match snd r with
          | Some e =>
              if String.eqb e "build not found" then
                ret (http_Error "Build not found" StatusNotFound)
              else
                do _ <- log_Printf "Error getting build: %v" [ArgErr e];
                ret (http_Error "Internal server error"
                                StatusInternalServerError)
          | None =>
              ret (mkResponse StatusOK "application/json"
                     match fst r with
                     | Some b => JsonBuild b
                     | None => JsonNull
                     end)
          end
      end
  end.

(** *** [listBuildsHandler] *)
Definition listBuildsHandler : M Response :=
  do r <- db_ListBuilds;
  match snd r with
  | Some e =>
      do _ <- log_Printf "Error listing builds: %v" [ArgErr e];
      ret (http_Error "Internal server error" StatusInternalServerError)
  | None => ret (mkResponse StatusOK "application/json" (JsonBuilds (fst r)))
  end.

(** *** [processBuild]

    The [build] pointer is the task's own record: the body returns it as it
    is when the function leaves.  [len(build.ProjectName)] is the length in
    bytes. *)
Definition len (s : string) : Z := Z.of_nat (String.length s).

(** The statements after the [defer]; returning early is returning here. *)
Definition processBuild_body (build : BuildRequest) : M BuildRequest :=
  let build := set_Status "running" build in
  do t <- time_Now;
  let build := set_UpdatedAt t build in
  do err <- db_UpdateBuildStatus (ID build) "running";
  match err with
  | Some e =>
      do _ <- log_Printf "Error updating build status to running: %v" [ArgErr e];
      ret build
  | None =>
      do _ <- time_Sleep (2 + len (ProjectName build) mod 4);
      let success := negb (len (ProjectName build) mod 10 =? 0) in
      do build <-
        (if success then
           do _ <- with_metrics (BuildsTotal_Inc "success");
           ret (set_Status "success" build)
         else
           do _ <- with_metrics (BuildsTotal_Inc "failed");
           ret (set_Status "failed" build));
      do t <- time_Now;
      let build := set_UpdatedAt t build in
      do err <- db_UpdateBuildStatus (ID build) (Status build);
      do _ <- match err with
         | Some e =>
             log_Printf "Error updating build status to %s: %v"
                        [ArgStr (Status build); ArgErr e]
         | None => ret tt
         end;
      do _ <- log_Printf "Build %d completed with status: %s"
                    [ArgInt (ID build); ArgStr (Status build)];
      ret build
  end.

(** The function deferred at the top of [processBuild]; it runs when the
    body is left, whichever way. *)
Definition processBuild_deferred (start : Time) (build : BuildRequest)
    : M unit :=
  do now <- time_Now;
  let duration := now - start in
  do _ <- with_metrics (BuildDuration_Observe (ProjectName build) duration);
  with_metrics ActiveBuilds_Dec.

Definition processBuild (build : BuildRequest) : M BuildRequest :=
  do start <- time_Now;
  do build <- processBuild_body build;
  do _ <- processBuild_deferred start build;
  ret build.

End Service.

Arguments World : clear implicits.
Arguments M : clear implicits.

(** ** Sample stores and worlds, used to run the code on concrete inputs *)

Module Sample.

Import Pg.

(** A server that accepts every statement, at instant 1000. *)
Definition accepting : nat -> Reply := fun _ => mkReply None 1000.

(** A server that refuses every statement. *)
Definition refusing : nat -> Reply :=
  fun _ => mkReply (Some "connection refused") 1000.

(** A server that accepts the first statement only. *)
Definition accept_once : nat -> Reply := fun n =>
  match n with
  | O => mkReply None 1000
  | _ => mkReply (Some "connection refused") 1000
  end.

(** A clock that advances by one at every reading. *)
Definition ticking : nat -> Time := Z.of_nat.

Definition no_metrics : Metrics := mkMetrics ∅ [] 0 1.

Definition world (rows : list BuildRequest) (srv : nat -> Reply)
    : World PostgreSQLDatabase :=
  mkWorld (mkPg rows 1 0 srv) no_metrics ticking 0 [] [] [] [].

Definition demo : BuildRequest :=
  mkBuildRequest 0 "demo" "https://x/y.git" "" "" 0 0.

Definition queued_demo : BuildRequest :=
  mkBuildRequest 1 "demo" "https://x/y.git" "main" "queued" 0 1.

End Sample.

(** ** Construction of the service: [NewMetrics], [Register],
    [NewBuildService], [NewBuildServiceWithRegistry]

    A Prometheus registry is the set of the metric names registered with
    it; [MustRegister] panics ([None]) on a name that is already there. *)

Definition NewMetrics : Metrics := mkMetrics ∅ [] 0 0.

(** [m.HealthCheck.Set(v)] *)
Definition HealthCheck_Set (v : Z) (m : Metrics) : Metrics :=
  mkMetrics (BuildsTotal m) (BuildDuration m) (ActiveBuilds m) v.

Definition MustRegister (name : string) (registry : gset string)
    : option (gset string) :=
  if decide (name ∈ registry) then None else Some ({[name]} ∪ registry).

(** [m.Register(registry)]: the four collectors of [NewMetrics], by name. *)
Definition Register (m : Metrics) (registry : gset string)
    : option (gset string) :=
  match MustRegister "builds_total" registry with
  | None => None
  | Some r1 =>
      match MustRegister "build_duration_seconds" r1 with
      | None => None
      | Some r2 =>
          match MustRegister "active_builds" r2 with
          | None => None
          | Some r3 => MustRegister "health_status" r3
          end
      end
  end.

Record BuildService (DB : Type) := mkBuildService {
  service_db : DB;
  service_metrics : Metrics
}.
Arguments mkBuildService {DB}.
Arguments service_db {DB}.
Arguments service_metrics {DB}.

(** [NewBuildServiceWithRegistry(db, registry)]; the result is the service
    and the registry afterwards, [None] when registration panics. *)
Definition NewBuildServiceWithRegistry {DB : Type} (d : DB)
    (registry : gset string) : option (BuildService DB * gset string) :=
  let metrics := NewMetrics in
  match Register metrics registry with
  | None => None
  | Some registry' =>
      Some (mkBuildService d (HealthCheck_Set 1 metrics), registry')
  end.

(** [NewBuildService(db)], [DefaultRegisterer] being the registry given. *)
Definition NewBuildService {DB : Type} (d : DB)
    (DefaultRegisterer : gset string)
    : option (BuildService DB * gset string) :=
  NewBuildServiceWithRegistry d DefaultRegisterer.

(** The world in which a service starts to serve. *)
Definition serving {DB : Type} (bs : BuildService DB) (clk : nat -> Time)
    : World DB :=
  mkWorld (service_db bs) (service_metrics bs) clk 0 [] [] [] [].

(** ** [healthHandler]

    The handler is written against an [http.ResponseWriter]: the header
    map, the status line once written together with the header sent with
    it, and the values encoded into the body.  A change of the header map
    after the status is written is not sent.  The service is served by the
    [net/http] server; its tests use [httptest.ResponseRecorder].  At the
    first write of the body the server adds to the header it sends, when
    that has no content type, the type it detects in the body, which for
    an encoded JSON object is "text/plain; charset=utf-8"; the recorder
    detects the type only when no status was written before that write,
    and then puts it into the header map. *)

Inductive HealthValue :=
| HString (s : string)
| HTime (t : Time).

Inductive WriterKind :=
| ServerWriter     (* the response of the net/http server *)
| Recorder.        (* httptest.ResponseRecorder *)

Record ResponseWriter := mkResponseWriter {
  kind : WriterKind;
  Header : gmap string string;
  wrote : option (Z * gmap string string);
  encoded : list (gmap string HealthValue)
}.

Definition NewRecorder : ResponseWriter := mkResponseWriter Recorder ∅ None [].

Definition NewServerResponse : ResponseWriter :=
  mkResponseWriter ServerWriter ∅ None [].

(** [w.WriteHeader(c)]; a second call is ignored. *)
Definition WriteHeader (c : Z) (rw : ResponseWriter) : ResponseWriter :=
  match wrote rw with
  | Some _ => rw
  | None =>
      mkResponseWriter (kind rw) (Header rw) (Some (c, Header rw))
                       (encoded rw)
  end.

(** [w.Header().Set(k, v)] *)
Definition Header_Set (k v : string) (rw : ResponseWriter) : ResponseWriter :=
  mkResponseWriter (kind rw) (<[k := v]> (Header rw)) (wrote rw)
                   (encoded rw).

(** [http.DetectContentType] of an encoded JSON object. *)
Definition detected : string := "text/plain; charset=utf-8".

Definition with_detected (h : gmap string string) : gmap string string :=
  match h !! "Content-Type" with
  | Some _ => h
  | None => <["Content-Type" := detected]> h
  end.

(** [json.NewEncoder(w).Encode(v)]: the first write sends 200 when no
    status has been written. *)
Definition Encode (v : gmap string HealthValue) (rw : ResponseWriter)
    : ResponseWriter :=
  let body := encoded rw ++ [v] in
  match kind rw, wrote rw with
  | Recorder, None =>
      let h := with_detected (Header rw) in
      mkResponseWriter Recorder h (Some (StatusOK, h)) body
  | Recorder, Some _ =>
      mkResponseWriter Recorder (Header rw) (wrote rw) body
  | ServerWriter, None =>
      mkResponseWriter ServerWriter (Header rw)
        (Some (StatusOK, with_detected (Header rw))) body
  | ServerWriter, Some (c, sent) =>
      mkResponseWriter ServerWriter (Header rw)
        (Some (c, match encoded rw with
                  | [] => with_detected sent
                  | _ => sent
                  end)) body
  end.

Definition StatusServiceUnavailable : Z := 503.

Section Health.

Context {DB : Type} `{DatabaseInterface DB}.

Notation "'do' x <- c ; k" := (bind c (fun x => k))
  (at level 10, x name, c at level 100, k at level 200).

(** [bs.db.Ping()]; [port_calls] lists the calls that concern builds, and a
    ping is not one of them. *)
Definition db_Ping : M DB (option error) := fun w =>
  let '(err, d) := Ping (db w) in
  (err, mkWorld d (metrics w) (clock w) (reads w) (logged w)
                (port_calls w) (goroutines w) (slept w)).

Definition healthHandler (rw : ResponseWriter) : M DB ResponseWriter :=
  do t <- time_Now;
  let health : gmap string HealthValue :=
    <["service" := HString "build-service"]>
      (<["timestamp" := HTime t]>
         (<["status" := HString "healthy"]> ∅)) in
  do err <- db_Ping;
  do r <-
    match err with
    | Some _ =>
        let health := <["status" := HString "unhealthy"]> health in
        let health := <["database" := HString "disconnected"]> health in
        do _ <- with_metrics (HealthCheck_Set 0);
        ret (health, WriteHeader StatusServiceUnavailable rw)
    | None =>
        let health := <["database" := HString "connected"]> health in
        do _ <- with_metrics (HealthCheck_Set 1);
        ret (health, WriteHeader StatusOK rw)
    end;
  let rw := Header_Set "Content-Type" "application/json" (snd r) in
  ret (Encode (fst r) rw).

(** ** The service at work

    [main] routes each request to its handler, and every task started with
    [go] runs at some later point.  [dispatch] serves one request, or runs
    one started task from its first statement to its last; [schedule] does
    so for a sequence of such events.  The second component of the state is
    the list of the tasks started and not yet run. *)

Inductive Event :=
| Submit (decoded : option BuildRequest)   (* POST /api/v1/builds *)
| Fetch (vars : gmap string string)        (* GET /api/v1/builds/{id} *)
| ListRecent                               (* GET /api/v1/builds *)
| Probe                                    (* GET /api/v1/health *)
| Finish (i : nat).                        (* the i-th waiting task runs *)

Definition started (w w' : World DB) : list BuildRequest :=
  drop (length (goroutines w)) (goroutines w').

Definition dispatch (ev : Event) (s : World DB * list BuildRequest)
    : World DB * list BuildRequest :=
  let '(w, waiting) := s in
  match ev with
  | Submit decoded =>
      let w' := snd (createBuildHandler decoded w) in
      (w', waiting ++ started w w')
  | Fetch vars => (snd (getBuildHandler vars w), waiting)
  | ListRecent => (snd (listBuildsHandler w), waiting)
  | Probe => (snd (healthHandler NewRecorder w), waiting)
  | Finish i =>
      match waiting !! i with
      | None => s
      | Some build => (snd (processBuild build w), delete i waiting)
      end
  end.

Definition schedule (evs : list Event) (s : World DB * list BuildRequest)
    : World DB * list BuildRequest :=
  foldl (fun s ev => dispatch ev s) s evs.

End Health.

(** ** The task in two steps

    [processBuild] stops once, in [time.Sleep], and requests are served and
    other tasks run while it sleeps.  [processBuild_to_sleep] is the
    function from its first statement up to the sleep: it gives [None] when
    the function has returned (the write of "running" failed, the deferred
    function has run), and otherwise the start time and the record with
    which the function goes on.  [processBuild_from_sleep] is the function
    from the sleep to its end. *)

Section Interleaving.

Context {DB : Type} `{DatabaseInterface DB}.

Notation "'do' x <- c ; k" := (bind c (fun x => k))
  (at level 10, x name, c at level 100, k at level 200).

Definition processBuild_to_sleep (build : BuildRequest)
    : M DB (option (Time * BuildRequest)) :=
  do start <- time_Now;
  let build := set_Status "running" build in
  do t <- time_Now;
  let build := set_UpdatedAt t build in
  do err <- db_UpdateBuildStatus (ID build) "running";
  match err with
  | Some e =>
      do _ <- log_Printf "Error updating build status to running: %v"
                         [ArgErr e];
      do _ <- processBuild_deferred start build;
      ret None
  | None =>
      do _ <- time_Sleep (2 + len (ProjectName build) mod 4);
      ret (Some (start, build))
  end.

Definition processBuild_from_sleep (start : Time) (build : BuildRequest)
    : M DB BuildRequest :=
  let success := negb (len (ProjectName build) mod 10 =? 0) in
  do build <-
    (if success then
       do _ <- with_metrics (BuildsTotal_Inc "success");
       ret (set_Status "success" build)
     else
       do _ <- with_metrics (BuildsTotal_Inc "failed");
       ret (set_Status "failed" build));
  do t <- time_Now;
  let build := set_UpdatedAt t build in
  do err <- db_UpdateBuildStatus (ID build) (Status build);
  do _ <- match err with
          | Some e =>
              log_Printf "Error updating build status to %s: %v"
                         [ArgStr (Status build); ArgErr e]
          | None => ret tt
          end;
  do _ <- log_Printf "Build %d completed with status: %s"
                     [ArgInt (ID build); ArgStr (Status build)];
  do _ <- processBuild_deferred start build;
  ret build.

(** A task started with [go]: not yet run, or asleep in [time.Sleep]. *)
Inductive Task :=
| Started (build : BuildRequest)
| Asleep (start : Time) (build : BuildRequest).

Definition task_build (t : Task) : BuildRequest :=
  match t with
  | Started build => build
  | Asleep _ build => build
  end.

(** One turn of the service: a request is served by the server, or the
    i-th task goes on to its next stop: a task not yet run runs up to its
    sleep, or to its end when it returns early; a task asleep runs to its
    end. *)
Inductive Turn :=
| Posted (decoded : option BuildRequest)
| Fetched (vars : gmap string string)
| Listed
| Probed
| Advance (i : nat).

Definition turn (t : Turn) (s : World DB * list Task)
    : World DB * list Task :=
  let '(w, tasks) := s in
  match t with
  | Posted decoded =>
      let w' := snd (createBuildHandler decoded w) in
      (w', tasks ++ (Started <$> started w w'))
  | Fetched vars => (snd (getBuildHandler vars w), tasks)
  | Listed => (snd (listBuildsHandler w), tasks)
  | Probed => (snd (healthHandler NewServerResponse w), tasks)
  | Advance i =>
      match tasks !! i with
      | None => s
      | Some (Started build) =>
          match processBuild_to_sleep build w with
          | (None, w') => (w', delete i tasks)
          | (Some (start, build'), w') =>
              (w', <[i := Asleep start build']> tasks)
          end
      | Some (Asleep start build) =>
          (snd (processBuild_from_sleep start build w), delete i tasks)
      end
  end.

Definition interleave (ts : list Turn) (s : World DB * list Task)
    : World DB * list Task :=
  foldl (fun s t => turn t s) s ts.

End Interleaving.

(** ** Invariants of the PostgreSQL store *)

(** Identifiers are pairwise different and below the next value of the
    sequence. *)
Definition fresh_ids (pg : Pg.PostgreSQLDatabase) : Prop :=
  NoDup (ID <$> Pg.builds pg)
  /\ Forall (fun r => ID r < Pg.builds_id_seq pg) (Pg.builds pg).

(** Every row has a project name and a git URL. *)
Definition named_rows (pg : Pg.PostgreSQLDatabase) : Prop :=
  Forall (fun r => ProjectName r <> "" /\ GitURL r <> "") (Pg.builds pg).

(** The waiting tasks belong to different builds, created by this store,
    and the row of each is still "queued". *)
Definition consistent
    (s : World Pg.PostgreSQLDatabase * list BuildRequest) : Prop :=
  fresh_ids (db (fst s))
  /\ NoDup (ID <$> snd s)
  /\ Forall (fun b => ID b < Pg.builds_id_seq (db (fst s))) (snd s)
  /\ (forall b r, b ∈ snd s -> r ∈ Pg.builds (db (fst s)) ->
                  ID r = ID b -> Status r = "queued").

(** The status the row of a task has while the task is at that stop. *)
Definition task_status (t : Task) : string :=
  match t with
  | Started _ => "queued"
  | Asleep _ _ => "running"
  end.

(** The tasks belong to different builds, created by this store; the row
    of a task not yet run is "queued", the row of a task asleep is
    "running". *)
Definition coherent (s : World Pg.PostgreSQLDatabase * list Task) : Prop :=
  fresh_ids (db (fst s))
  /\ NoDup ((fun t => ID (task_build t)) <$> snd s)
  /\ Forall (fun t => ID (task_build t) < Pg.builds_id_seq (db (fst s)))
            (snd s)
  /\ (forall t r, t ∈ snd s -> r ∈ Pg.builds (db (fst s)) ->
                  ID r = ID (task_build t) -> Status r = task_status t).

(** [r'] is the row [r] at a later point of its life: the same build; left
    alone unless it was "queued" or "running"; a "queued" row may have gone
    to "running", "success" or "failed", a "running" row to "success" or
    "failed". *)
Definition advances (r r' : BuildRequest) : Prop :=
  ID r' = ID r /\ ProjectName r' = ProjectName r /\ GitURL r' = GitURL r
  /\ Branch r' = Branch r /\ CreatedAt r' = CreatedAt r
  /\ (Status r <> "queued" -> Status r <> "running" -> r' = r)
  /\ (r' = r
      \/ (Status r = "queued"
          /\ (Status r' = "running" \/ Status r' = "success"
              \/ Status r' = "failed"))
      \/ (Status r = "running"
          /\ (Status r' = "success" \/ Status r' = "failed"))).

(** What a function on rows may do when it stands for the writes of the
    task of [build]. *)
Definition task_writes (build : BuildRequest)
    (f : BuildRequest -> BuildRequest) : Prop :=
  forall r,
    (ID r <> ID build -> f r = r)
    /\ ID (f r) = ID r /\ ProjectName (f r) = ProjectName r
    /\ GitURL (f r) = GitURL r /\ Branch (f r) = Branch r
    /\ CreatedAt (f r) = CreatedAt r
    /\ (f r = r \/ Status (f r) = "running" \/ Status (f r) = "success"
        \/ Status (f r) = "failed").

(** A service that starts on a store holding one build, with an accepting
    server and a ticking clock. *)
Definition restarted (row : BuildRequest) : World Pg.PostgreSQLDatabase :=
  serving (mkBuildService (Pg.mkPg [row] 2 0 Sample.accepting)
                          Sample.no_metrics)
          Sample.ticking.

(** * Properties *)

(** Runs a handler or the task symbolically: the monad and the primitive
    actions are unfolded, leaving the calls through the port. *)
Ltac run :=
  unfold bind, ret, db_CreateBuild, db_GetBuild, db_ListBuilds,
    db_UpdateBuildStatus, port, time_Now, time_Sleep, log_Printf,
    with_metrics, go_processBuild; simpl.

Ltac run_task :=
  unfold processBuild, processBuild_body, processBuild_deferred; run.

(** [Atoi] on a few identifiers a request path can carry. *)
Example Atoi_decimal : Atoi "999" = Some 999.
Proof. reflexivity. Qed.

Example Atoi_signed : Atoi "-12" = Some (-12) /\ Atoi "+7" = Some 7.
Proof. split; reflexivity. Qed.

Example Atoi_rejects :
  Atoi "invalid" = None /\ Atoi "" = None /\ Atoi "-" = None
  /\ Atoi "1_000" = None /\ Atoi "9223372036854775808" = None.
Proof. repeat split; reflexivity. Qed.

Example Atoi_widest :
  Atoi "9223372036854775807" = Some (2 ^ 63 - 1)
  /\ Atoi "-9223372036854775808" = Some (- 2 ^ 63).
Proof. split; reflexivity. Qed.

Section ServiceFacts.

Context {DB : Type} `{DatabaseInterface DB}.

Implicit Types (w : World DB) (build : BuildRequest).

(** The persistence calls the task makes, given what the port answers to
    the write of "running". *)
Lemma processBuild_calls build w :
  let w' := snd (processBuild build w) in
  let id := ID build in
  match UpdateBuildStatus id "running" (db w) with
  | (Some e, d) =>
      port_calls w' =
        port_calls w ++ [CalledUpdateBuildStatus id "running" (Some e)]
      /\ db w' = d
      /\ logged w' =
           logged w ++
             [Printf "Error updating build status to running: %v" [ArgErr e]]
  | (None, d) =>
      let s := if len (ProjectName build) mod 10 =? 0
               then "failed" else "success" in
      port_calls w' =
        port_calls w ++
          [CalledUpdateBuildStatus id "running" None;
           CalledUpdateBuildStatus id s (fst (UpdateBuildStatus id s d))]
      /\ db w' = snd (UpdateBuildStatus id s d)
      /\ Status (fst (processBuild build w)) = s
  end.
Proof.
  run_task.
  destruct (UpdateBuildStatus (ID build) "running" (db w)) as [[e|] d] eqn:E1;
    simpl.
  - auto.
  - destruct (len (ProjectName build) mod 10 =? 0); simpl;
      match goal with
      | |- context [UpdateBuildStatus ?i ?s d] =>
          destruct (UpdateBuildStatus i s d) as [[e2|] d2]
      end; simpl; rewrite <- ?app_assoc; auto.
Qed.

(** The metrics the task leaves behind: one observation, one decrement, and
    one count of the outcome when the body got that far. *)
Lemma processBuild_metrics build w :
  let w' := snd (processBuild build w) in
  BuildDuration (metrics w') =
    BuildDuration (metrics w) ++
      [(ProjectName build, clock w' (Nat.pred (reads w')) - clock w (reads w))]
  /\ ActiveBuilds (metrics w') = ActiveBuilds (metrics w) - 1
  /\ HealthCheck (metrics w') = HealthCheck (metrics w)
  /\ clock w' = clock w.
Proof.
  run_task.
  destruct (UpdateBuildStatus (ID build) "running" (db w)) as [[e|] d];
    simpl.
  - auto.
  - destruct (len (ProjectName build) mod 10 =? 0); simpl;
      match goal with
      | |- context [UpdateBuildStatus ?i ?s d] =>
          destruct (UpdateBuildStatus i s d) as [[e2|] d2]
      end; simpl; auto.
Qed.

(** The record [createBuildHandler] builds from a submission before it asks
    the port to create it. *)
Lemma createBuildHandler_valid (req : BuildRequest) w :
  ProjectName req <> "" -> GitURL req <> "" ->
  let built :=
    set_UpdatedAt (clock w (S (reads w)))
      (set_CreatedAt (clock w (reads w))
         (set_Status "queued"
            (if String.eqb (Branch req) "" then set_Branch "main" req
             else req))) in
  let r := CreateBuild built (db w) in
  let id := fst (fst r) in
  let err := snd (fst r) in
  let resp := fst (createBuildHandler (Some req) w) in
  let w' := snd (createBuildHandler (Some req) w) in
  port_calls w' = port_calls w ++ [CalledCreateBuild built id err]
  /\ db w' = snd r
  /\ match err with
     | None =>
         resp = mkResponse StatusCreated "application/json"
                  (JsonBuild (set_ID id built))
         /\ metrics w' = ActiveBuilds_Inc (BuildsTotal_Inc "queued" (metrics w))
         /\ goroutines w' = goroutines w ++ [set_ID id built]
     | Some e =>
         resp = http_Error "Internal server error" StatusInternalServerError
         /\ metrics w' = metrics w
         /\ goroutines w' = goroutines w
     end.
Proof.
  intros Hp Hg. apply String.eqb_neq in Hp. apply String.eqb_neq in Hg.
  unfold createBuildHandler. rewrite Hp, Hg. simpl.
  run.
  destruct (CreateBuild _ (db w)) as [[id [e|]] d]; simpl; auto.
Qed.

(** A submission is answered 201 only after it passed validation and the
    port created the record. *)
Lemma createBuildHandler_created decoded w resp w' :
  createBuildHandler decoded w = (resp, w') ->
  code resp = StatusCreated ->
  exists req, decoded = Some req /\ ProjectName req <> "" /\ GitURL req <> ""
    /\ ActiveBuilds (metrics w') = ActiveBuilds (metrics w) + 1
    /\ exists b, goroutines w' = goroutines w ++ [b]
         /\ body resp = JsonBuild b
         /\ CreatedAt b = clock w (reads w)
         /\ UpdatedAt b = clock w (S (reads w)).
Proof.
  intros Hrun Hcode. destruct decoded as [req|].
  2:{ inversion Hrun; subst. discriminate. }
  destruct (String.eqb (ProjectName req) "") eqn:Hp.
  { unfold createBuildHandler in Hrun. rewrite Hp in Hrun. simpl in Hrun.
    inversion Hrun; subst. discriminate. }
  destruct (String.eqb (GitURL req) "") eqn:Hg.
  { unfold createBuildHandler in Hrun. rewrite Hp, Hg in Hrun. simpl in Hrun.
    inversion Hrun; subst. discriminate. }
  apply String.eqb_neq in Hp. apply String.eqb_neq in Hg.
  exists req. split; [reflexivity|]. split; [assumption|].
  split; [assumption|].
  pose proof (createBuildHandler_valid req w Hp Hg) as Hv.
  rewrite Hrun in Hv. simpl in Hv. destruct Hv as (_ & _ & Hv).
  destruct (snd (fst (CreateBuild _ (db w)))) as [e|].
  - destruct Hv as (-> & _). discriminate.
  - destruct Hv as (-> & -> & ->). split; [reflexivity|].
    eexists. split; [reflexivity|]. simpl. auto.
Qed.

(** C1. The task issues its status writes in order: the first write is
    "running"; a terminal status ("success" or "failed") is written only
    after the write of "running" was accepted, and then exactly once, as the
    last write; nothing is written after a terminal status, so no write
    takes the build back to "queued" or "running". *)
Theorem processBuild_writes_in_order build w :
  exists tr,
    port_calls (snd (processBuild build w)) = port_calls w ++ tr
    /\ ((exists e,
           tr = [CalledUpdateBuildStatus (ID build) "running" (Some e)])
        \/ (exists s err,
              tr = [CalledUpdateBuildStatus (ID build) "running" None;
                    CalledUpdateBuildStatus (ID build) s err]
              /\ is_terminal s = true)).
Proof.
  pose proof (processBuild_calls build w) as Hc. simpl in Hc.
  destruct (UpdateBuildStatus (ID build) "running" (db w)) as [[e|] d].
  - destruct Hc as (Hc & _). eexists. split; [exact Hc|]. left. eauto.
  - destruct Hc as (Hc & _). eexists. split; [exact Hc|]. right.
    do 2 eexists. split; [reflexivity|].
    destruct (len (ProjectName build) mod 10 =? 0); reflexivity.
Qed.

(** C2. Every run of [processBuild] makes exactly one observation of the
    build-duration histogram, labelled with the project name, and
    decrements the active-builds gauge exactly once, whichever way the body
    is left; after a submission answered 201 and the run of its task, the
    gauge is back at its value before the submission. *)
Theorem processBuild_exit_accounting build w :
  let w' := snd (processBuild build w) in
  (exists d, BuildDuration (metrics w') =
               BuildDuration (metrics w) ++ [(ProjectName build, d)])
  /\ ActiveBuilds (metrics w') = ActiveBuilds (metrics w) - 1
  /\ (forall decoded w0 resp,
        createBuildHandler decoded w0 = (resp, w) ->
        code resp = StatusCreated ->
        goroutines w = goroutines w0 ++ [build] ->
        ActiveBuilds (metrics w') = ActiveBuilds (metrics w0)).
Proof.
  pose proof (processBuild_metrics build w) as (Hd & Ha & _). simpl in *.
  split; [eauto|]. split; [assumption|].
  intros decoded w0 resp Hrun Hcode _.
  destruct (createBuildHandler_created _ _ _ _ Hrun Hcode)
    as (req & _ & _ & _ & Hinc & _).
  rewrite Ha, Hinc. lia.
Qed.


(** C5. A submission whose project name or git URL is empty (a field
    missing from the body decodes to the empty string) is answered 400 and
    leaves the world as it was: no call through the persistence port, no
    record, no metric changed, no task started. *)
Theorem createBuildHandler_rejects_empty (req : BuildRequest) w :
  ProjectName req = "" \/ GitURL req = "" ->
  let resp := fst (createBuildHandler (Some req) w) in
  let w' := snd (createBuildHandler (Some req) w) in
  code resp = StatusBadRequest
  /\ w' = w
  /\ port_calls w' = port_calls w
  /\ db w' = db w
  /\ metrics w' = metrics w
  /\ goroutines w' = goroutines w.
Proof.
  intros Hempty. unfold createBuildHandler.
  assert (String.eqb (ProjectName req) "" || String.eqb (GitURL req) ""
          = true) as ->.
  { apply orb_true_iff.
    destruct Hempty as [->| ->]; [left|right]; reflexivity. }
  simpl. auto 10.
Qed.

(** C6. A submission with a project name and a git URL has its branch set
    to "main" when it is empty and its status to "queued", and is handed to
    the persistence port, once.  When the port creates it, the answer is
    201 with that record, its identifier being the one the port returned
    whatever identifier the client sent; the counters are incremented and
    the task is started on that record.  When the port fails, the answer is
    500, no metric changes and no task is started. *)
Theorem createBuildHandler_accepts (req : BuildRequest) w :
  ProjectName req <> "" -> GitURL req <> "" ->
  let resp := fst (createBuildHandler (Some req) w) in
  let w' := snd (createBuildHandler (Some req) w) in
  exists built id err d,
    CreateBuild built (db w) = ((id, err), d)
    /\ port_calls w' = port_calls w ++ [CalledCreateBuild built id err]
    /\ db w' = d
    /\ ProjectName built = ProjectName req
    /\ GitURL built = GitURL req
    /\ Branch built = (if String.eqb (Branch req) "" then "main"
                       else Branch req)
    /\ Status built = "queued"
    /\ match err with
       | None =>
           let created :=
             mkBuildRequest id (ProjectName req) (GitURL req)
               (if String.eqb (Branch req) "" then "main" else Branch req)
               "queued" (CreatedAt built) (UpdatedAt built) in
           resp = mkResponse StatusCreated "application/json"
                    (JsonBuild created)
           /\ metrics w' =
                ActiveBuilds_Inc (BuildsTotal_Inc "queued" (metrics w))
           /\ goroutines w' = goroutines w ++ [created]
       | Some _ =>
           code resp = StatusInternalServerError
           /\ metrics w' = metrics w
           /\ goroutines w' = goroutines w
       end.
Proof.
  intros Hp Hg.
  pose proof (createBuildHandler_valid req w Hp Hg) as Hv. simpl in Hv.
  destruct Hv as (Hcalls & Hdb & Hres).
  destruct (CreateBuild _ (db w)) as [[id err] d] eqn:Hcreate.
  simpl in *. eexists _, id, err, d.
  split; [exact Hcreate|]. split; [exact Hcalls|]. split; [exact Hdb|].
  repeat split; try (destruct (String.eqb (Branch req) ""); reflexivity).
  destruct err as [e|].
  - destruct Hres as (-> & ? & ?). auto.
  - destruct Hres as (-> & -> & ->).
    destruct (String.eqb (Branch req) ""); auto.
Qed.

(** C7, as the code has it. In the record of a 201 answer the created
    timestamp is the clock reading taken first and the updated timestamp
    the reading taken right after it; the two are equal exactly when the
    clock gave the same instant at both readings. *)
Theorem createBuildHandler_timestamps decoded w resp w' :
  createBuildHandler decoded w = (resp, w') ->
  code resp = StatusCreated ->
  exists b,
    body resp = JsonBuild b
    /\ CreatedAt b = clock w (reads w)
    /\ UpdatedAt b = clock w (S (reads w))
    /\ (CreatedAt b = UpdatedAt b <->
          clock w (reads w) = clock w (S (reads w))).
Proof.
  intros Hrun Hcode.
  destruct (createBuildHandler_created _ _ _ _ Hrun Hcode)
    as (req & _ & _ & _ & _ & b & _ & Hb & Hc & Hu).
  exists b. rewrite Hc, Hu. tauto.
Qed.

End ServiceFacts.

Lemma processBuild_exit_accounting_witness :
  let w0 := Sample.world [] Sample.accepting in
  let w1 := snd (createBuildHandler (Some Sample.demo) w0) in
  goroutines w1 = [Sample.queued_demo]
  /\ ActiveBuilds (metrics (snd (processBuild Sample.queued_demo w1))) =
       ActiveBuilds (metrics w0).
Proof.
  split; [reflexivity|].
  apply (proj2 (proj2 (processBuild_exit_accounting Sample.queued_demo
           (snd (createBuildHandler (Some Sample.demo)
                   (Sample.world [] Sample.accepting)))))
         (Some Sample.demo) (Sample.world [] Sample.accepting)
         (fst (createBuildHandler (Some Sample.demo)
                 (Sample.world [] Sample.accepting))));
    reflexivity.
Defined.


Lemma createBuildHandler_rejects_empty_witness :
  code (fst (createBuildHandler
               (Some (mkBuildRequest 0 "" "https://x/y.git" "" "" 0 0))
               (Sample.world [] Sample.accepting))) = StatusBadRequest
  /\ port_calls (snd (createBuildHandler
               (Some (mkBuildRequest 0 "" "https://x/y.git" "" "" 0 0))
               (Sample.world [] Sample.accepting))) = [].
Proof.
  pose proof (createBuildHandler_rejects_empty
                (mkBuildRequest 0 "" "https://x/y.git" "" "" 0 0)
                (Sample.world [] Sample.accepting)
                (or_introl eq_refl)) as (Hcode & _ & Hcalls & _).
  split; [exact Hcode | exact Hcalls].
Defined.

Lemma createBuildHandler_accepts_witness :
  exists b,
    body (fst (createBuildHandler
                 (Some (mkBuildRequest 77 "demo" "https://x/y.git" ""
                          "success" 5 6))
                 (Sample.world [] Sample.accepting))) = JsonBuild b
    /\ ID b = 1 /\ Branch b = "main" /\ Status b = "queued".
Proof.
  destruct (createBuildHandler_accepts
              (mkBuildRequest 77 "demo" "https://x/y.git" "" "success" 5 6)
              (Sample.world [] Sample.accepting))
    as (built & id & err & d & Hcreate & _ & _ & _ & _ & _ & _ & Hres);
    [discriminate | discriminate |].
  simpl in Hcreate. inversion Hcreate; subst id err d.
  destruct Hres as (Hresp & _). rewrite Hresp. simpl.
  eexists. split; [reflexivity|]. simpl. auto.
Defined.

(** C7, as stated, fails: with a clock that advances between the two
    readings the record of the 201 answer has different timestamps. *)
Lemma createBuildHandler_timestamps_differ :
  let resp := fst (createBuildHandler (Some Sample.demo)
                     (Sample.world [] Sample.accepting)) in
  code resp = StatusCreated
  /\ exists b, body resp = JsonBuild b /\ CreatedAt b <> UpdatedAt b.
Proof.
  split; [reflexivity|].
  exists Sample.queued_demo. split; [reflexivity|]. discriminate.
Qed.

Lemma createBuildHandler_timestamps_witness :
  exists b,
    body (fst (createBuildHandler (Some Sample.demo)
                 (Sample.world [] Sample.accepting))) = JsonBuild b
    /\ CreatedAt b = 0 /\ UpdatedAt b = 1.
Proof.
  destruct (createBuildHandler_timestamps (Some Sample.demo)
              (Sample.world [] Sample.accepting)
              (fst (createBuildHandler (Some Sample.demo)
                      (Sample.world [] Sample.accepting)))
              (snd (createBuildHandler (Some Sample.demo)
                      (Sample.world [] Sample.accepting))))
    as (b & Hb & Hc & Hu & _); [apply surjective_pairing | reflexivity |].
  exists b. split; [exact Hb|]. split; [exact Hc | exact Hu].
Defined.

(** ** The PostgreSQL store *)

Import Pg.

Lemma newer_first_trans : Transitive newer_first.
Proof. unfold newer_first. intros a b c Hab Hbc. lia. Qed.

Lemma newer_first_total : Total newer_first.
Proof. unfold newer_first. intros a b. lia. Qed.

(** What [LIMIT 100] of the ordered rows is: a prefix of the ordering, of
    bounded length, every row left out no newer than every row kept. *)
Lemma sql_select_recent_spec (rows : list BuildRequest) :
  let l := sql_select_recent rows in
  let rest := drop 100 (merge_sort newer_first rows) in
  length l = Nat.min 100 (length rows)
  /\ StronglySorted newer_first l
  /\ l ++ rest ≡ₚ rows
  /\ (forall a b, a ∈ l -> b ∈ rest -> CreatedAt b <= CreatedAt a).
Proof.
  unfold sql_select_recent. simpl.
  pose proof (@StronglySorted_merge_sort _ newer_first _ newer_first_trans
                newer_first_total rows) as Hsorted.
  pose proof (merge_sort_Permutation newer_first rows) as Hperm.
  rewrite <- (take_drop 100 (merge_sort newer_first rows)) in Hsorted.
  repeat split.
  - rewrite length_take. now rewrite Hperm.
  - eapply StronglySorted_app_1_l; exact Hsorted.
  - now rewrite take_drop.
  - intros a b Ha Hb.
    exact (StronglySorted_app_1_elem_of _ _ _ _ _ Hsorted Ha Hb).
Qed.

(** C9. [listBuildsHandler] changes no row of the table, no metric and
    starts no task; when the server accepts the query, the answer is 200
    with at most 100 rows, in order of creation time with the most recently
    created first, and they are the most recent rows of the table: every row
    left out was created no later than every row returned. *)
Theorem listBuilds_recent_newest_first (w : World PostgreSQLDatabase) :
  let resp := fst (listBuildsHandler w) in
  let w' := snd (listBuildsHandler w) in
  builds (db w') = builds (db w)
  /\ metrics w' = metrics w
  /\ goroutines w' = goroutines w
  /\ (refuse (reply (db w)) = None ->
      exists l rest,
        ListBuilds (db w) = ((l, None), db w')
        /\ resp = mkResponse StatusOK "application/json" (JsonBuilds l)
        /\ (length l <= 100)%nat
        /\ length l = Nat.min 100 (length (builds (db w)))
        /\ StronglySorted newer_first l
        /\ l ++ rest ≡ₚ builds (db w)
        /\ (forall a b, a ∈ l -> b ∈ rest -> CreatedAt b <= CreatedAt a)).
Proof.
  unfold listBuildsHandler. run. unfold pgListBuilds.
  destruct (refuse (reply (db w))) as [e|] eqn:Hsrv; simpl.
  - repeat split; auto. discriminate.
  - repeat split; auto. intros _.
    destruct (sql_select_recent_spec (builds (db w)))
      as (Hlen & Hsorted & Hperm & Hrecent).
    eexists _, _. repeat split; eauto. rewrite Hlen. lia.
Qed.

Lemma listBuilds_recent_newest_first_witness :
  let older := mkBuildRequest 1 "demo" "https://x/y.git" "main" "success" 5 9 in
  let newer := mkBuildRequest 2 "demo" "https://x/y.git" "main" "queued" 7 7 in
  exists l,
    fst (listBuildsHandler (Sample.world [older; newer] Sample.accepting))
    = mkResponse StatusOK "application/json" (JsonBuilds l)
    /\ StronglySorted newer_first l
    /\ (length l <= 100)%nat.
Proof.
  intros older newer.
  destruct (listBuilds_recent_newest_first
              (Sample.world [older; newer] Sample.accepting))
    as (_ & _ & _ & Hok).
  destruct (Hok eq_refl) as (l & rest & _ & Hresp & Hlen & _ & Hsorted & _).
  exists l. split; [exact Hresp|]. split; [exact Hsorted | exact Hlen].
Defined.

(** C10. [UpdateBuildStatus] keeps the number and the order of the rows;
    in every row it keeps the id, the project name, the git URL, the branch
    and the creation time; a row with another id is unchanged altogether;
    a row with that id gets the new status and the server's current time as
    its update time.  A refused statement changes no row. *)
Theorem UpdateBuildStatus_frame (id : Z) (status : string)
    (pg : PostgreSQLDatabase) (i : nat) (r : BuildRequest) :
  builds pg !! i = Some r ->
  let err := fst (UpdateBuildStatus id status pg) in
  let pg' := snd (UpdateBuildStatus id status pg) in
  length (builds pg') = length (builds pg)
  /\ builds_id_seq pg' = builds_id_seq pg
  /\ exists r',
       builds pg' !! i = Some r'
       /\ ID r' = ID r
       /\ ProjectName r' = ProjectName r
       /\ GitURL r' = GitURL r
       /\ Branch r' = Branch r
       /\ CreatedAt r' = CreatedAt r
       /\ (ID r <> id -> r' = r)
       /\ (err <> None -> r' = r)
       /\ (ID r = id -> err = None ->
           Status r' = status /\ UpdatedAt r' = NOW (reply pg)).
Proof.
  intros Hrow. simpl. unfold pgUpdateBuildStatus.
  destruct (refuse (reply pg)) as [e|]; simpl.
  - split; [reflexivity|]. split; [reflexivity|].
    exists r. repeat split; auto; intros; discriminate.
  - rewrite length_fmap. split; [reflexivity|]. split; [reflexivity|].
    exists (sql_update_status (NOW (reply pg)) status id r).
    rewrite list_lookup_fmap, Hrow. simpl. unfold sql_update_status.
    destruct (Z.eqb_spec (ID r) id) as [Heq|Hne]; simpl;
      repeat split; auto; intros; congruence.
Qed.

Lemma UpdateBuildStatus_frame_witness :
  let other := mkBuildRequest 2 "other" "https://x/z.git" "dev" "queued" 3 3 in
  let pg := mkPg [Sample.queued_demo; other] 3 0 Sample.accepting in
  (exists r', builds (snd (UpdateBuildStatus 1 "running" pg)) !! 0%nat = Some r'
     /\ ProjectName r' = "demo" /\ CreatedAt r' = 0
     /\ Status r' = "running" /\ UpdatedAt r' = 1000)
  /\ (exists r', builds (snd (UpdateBuildStatus 1 "running" pg)) !! 1%nat = Some r'
     /\ r' = other).
Proof.
  intros other pg. split.
  - destruct (UpdateBuildStatus_frame 1 "running" pg 0 Sample.queued_demo
                eq_refl)
      as (_ & _ & r' & Hrow & _ & Hname & _ & _ & Hcreated & _ & _ & Hset).
    destruct (Hset eq_refl eq_refl) as (Hstatus & Hupdated).
    exists r'. split; [exact Hrow|]. split; [exact Hname|].
    split; [exact Hcreated|]. split; [exact Hstatus | exact Hupdated].
  - destruct (UpdateBuildStatus_frame 1 "running" pg 1 other eq_refl)
      as (_ & _ & r' & Hrow & _ & _ & _ & _ & _ & Hother & _).
    exists r'. split; [exact Hrow|]. apply Hother. discriminate.
Defined.

(** C8, as stated, fails: a request whose identifier is not an integer is
    answered 400, and one the server refuses is answered 500. *)
Lemma getBuildHandler_other_responses :
  code (fst (getBuildHandler {["id" := "invalid"]}
               (Sample.world [Sample.queued_demo] Sample.accepting)))
  = StatusBadRequest
  /\ code (fst (getBuildHandler {["id" := "1"]}
                  (Sample.world [Sample.queued_demo] Sample.refusing)))
     = StatusInternalServerError.
Proof. split; vm_compute; reflexivity. Qed.

(** C8, as the code has it. [getBuildHandler] changes no row and no metric
    and gives one of four answers: 400 when the identifier is missing or is
    not an integer (the port is not called); 200 with the stored row when
    the server accepts the query and a row has that identifier; 404 when
    the error's text is "build not found", which is what [GetBuild] reports
    when no row has the identifier; 500 for any other error. *)
Theorem getBuildHandler_responses (vars : gmap string string)
    (w : World PostgreSQLDatabase) :
  let resp := fst (getBuildHandler vars w) in
  let w' := snd (getBuildHandler vars w) in
  let pg := db w in
  builds (db w') = builds pg
  /\ metrics w' = metrics w
  /\ ((code resp = StatusBadRequest
       /\ vars !! "id" ≫= Atoi = None
       /\ w' = w)
      \/ exists id,
           vars !! "id" ≫= Atoi = Some id
           /\ ((code resp = StatusOK
                /\ refuse (reply pg) = None
                /\ exists row,
                     sql_select_by_id (builds pg) id = Some row
                     /\ row ∈ builds pg
                     /\ ID row = id
                     /\ body resp = JsonBuild row)
               \/ (code resp = StatusNotFound
                   /\ (refuse (reply pg) = None
                       /\ sql_select_by_id (builds pg) id = None
                       \/ refuse (reply pg) = Some "build not found"))
               \/ (code resp = StatusInternalServerError
                   /\ exists e, refuse (reply pg) = Some e
                                /\ e <> "build not found"))).
Proof.
  unfold getBuildHandler.
  destruct (vars !! "id") as [idStr|]; simpl; [|auto 10].
  destruct (Atoi idStr) as [id|]; simpl; [|auto 10].
  run. unfold pgGetBuild.
  destruct (refuse (reply (db w))) as [e|] eqn:Hsrv; simpl.
  - destruct (String.eqb_spec e "build not found") as [->|Hne]; simpl.
    + repeat split; auto. right. exists id. split; [reflexivity|].
      right. left. auto.
    + repeat split; auto. right. exists id. split; [reflexivity|].
      right. right. eauto.
  - destruct (sql_select_by_id (builds (db w)) id) as [row|] eqn:Hrow; simpl.
    + repeat split; auto. right. exists id. split; [reflexivity|].
      left. repeat split; auto. exists row.
      pose proof Hrow as Hfound. unfold sql_select_by_id in Hfound.
      apply find_some in Hfound as [Hin Hid].
      apply list_elem_of_In in Hin. apply Z.eqb_eq in Hid. auto.
    + repeat split; auto. right. exists id. split; [reflexivity|].
      right. left. auto.
Qed.

(** C3, as stated, fails: the write of "running" is refused and the gauge,
    incremented by the submission, is back at its value before it. *)
Lemma processBuild_refused_gauge_restored :
  let w0 := Sample.world [] Sample.accept_once in
  let w1 := snd (createBuildHandler (Some Sample.demo) w0) in
  let w2 := snd (processBuild Sample.queued_demo w1) in
  goroutines w1 = [Sample.queued_demo]
  /\ port_calls w2 =
       port_calls w1 ++
         [CalledUpdateBuildStatus 1 "running" (Some "connection refused")]
  /\ ActiveBuilds (metrics w0) = 0
  /\ ActiveBuilds (metrics w1) = 1
  /\ ActiveBuilds (metrics w2) = 0.
Proof. vm_compute. auto. Qed.

(** C3, as the code has it. When the server refuses a status write, the
    task logs the error and makes no further write: refused at "running",
    it leaves the table as it was; refused at the terminal status, it
    leaves the build's row at "running".  In both cases the gauge is
    decremented, once. *)
Theorem processBuild_write_refused (build : BuildRequest)
    (w : World PostgreSQLDatabase) (e : error) :
  let w' := snd (processBuild build w) in
  let pg := db w in
  let id := ID build in
  (refuse (reply pg) = Some e ->
   port_calls w' =
     port_calls w ++ [CalledUpdateBuildStatus id "running" (Some e)]
   /\ logged w' =
        logged w ++
          [Printf "Error updating build status to running: %v" [ArgErr e]]
   /\ builds (db w') = builds pg
   /\ ActiveBuilds (metrics w') = ActiveBuilds (metrics w) - 1)
  /\ (refuse (reply pg) = None ->
      refuse (server pg (S (statements pg))) = Some e ->
      exists s,
        is_terminal s = true
        /\ port_calls w' =
             port_calls w ++ [CalledUpdateBuildStatus id "running" None;
                              CalledUpdateBuildStatus id s (Some e)]
        /\ logged w' =
             logged w ++
               [Printf "Error updating build status to %s: %v"
                       [ArgStr s; ArgErr e];
                Printf "Build %d completed with status: %s"
                       [ArgInt id; ArgStr s]]
        /\ builds (db w') =
             sql_update_status (NOW (reply pg)) "running" id <$> builds pg
        /\ (forall r, r ∈ builds (db w') -> ID r = id ->
                      Status r = "running")
        /\ ActiveBuilds (metrics w') = ActiveBuilds (metrics w) - 1).
Proof.
  run_task.
  unfold pgUpdateBuildStatus. split.
  - intros ->. simpl. auto.
  - intros -> Hsnd. simpl.
    assert (forall r,
              r ∈ sql_update_status (NOW (reply (db w))) "running" (ID build)
                    <$> builds (db w) ->
              ID r = ID build -> Status r = "running") as Hrows.
    { intros r Hin Hid. apply list_elem_of_fmap in Hin as (r0 & -> & _).
      unfold sql_update_status in *.
      destruct (Z.eqb_spec (ID r0) (ID build)); [reflexivity|].
      contradiction. }
    destruct (len (ProjectName build) mod 10 =? 0); simpl;
      unfold reply at 1; simpl; rewrite Hsnd; simpl;
      [exists "failed" | exists "success"];
      (split; [reflexivity|]); rewrite <- ?app_assoc; simpl; auto 10.
Qed.

Lemma processBuild_write_refused_witness :
  (let w := Sample.world [Sample.queued_demo] Sample.refusing in
   let w' := snd (processBuild Sample.queued_demo w) in
   port_calls w' =
     [CalledUpdateBuildStatus 1 "running" (Some "connection refused")]
   /\ builds (db w') = [Sample.queued_demo]
   /\ ActiveBuilds (metrics w') = -1)
  /\ (let w := Sample.world [Sample.queued_demo] Sample.accept_once in
      let w' := snd (processBuild Sample.queued_demo w) in
      exists s,
        port_calls w' =
          [CalledUpdateBuildStatus 1 "running" None;
           CalledUpdateBuildStatus 1 s (Some "connection refused")]
        /\ (forall r, r ∈ builds (db w') -> ID r = 1 -> Status r = "running")
        /\ ActiveBuilds (metrics w') = -1).
Proof.
  split.
  - intros w w'.
    destruct (proj1 (processBuild_write_refused Sample.queued_demo
                       (Sample.world [Sample.queued_demo] Sample.refusing)
                       "connection refused") eq_refl)
      as (Hcalls & _ & Hrows & Hgauge).
    split; [exact Hcalls|]. split; [exact Hrows | exact Hgauge].
  - intros w w'.
    destruct (proj2 (processBuild_write_refused Sample.queued_demo
                       (Sample.world [Sample.queued_demo] Sample.accept_once)
                       "connection refused") eq_refl eq_refl)
      as (s & _ & Hcalls & _ & _ & Hrows & Hgauge).
    exists s. split; [exact Hcalls|]. split; [exact Hrows | exact Hgauge].
Defined.

Lemma getBuildHandler_responses_witness :
  metrics (snd (getBuildHandler {["id" := "1"]}
                  (Sample.world [Sample.queued_demo] Sample.accepting)))
  = Sample.no_metrics.
Proof.
  destruct (getBuildHandler_responses {["id" := "1"]}
              (Sample.world [Sample.queued_demo] Sample.accepting))
    as (_ & Hm & _).
  exact Hm.
Defined.

(** ** More on the PostgreSQL store: identifiers, round trips, updates *)

Lemma sql_update_status_ID now status id r :
  ID (sql_update_status now status id r) = ID r.
Proof. unfold sql_update_status. destruct (ID r =? id); reflexivity. Qed.

Lemma sql_update_status_IDs now status id (rows : list BuildRequest) :
  ID <$> (sql_update_status now status id <$> rows) = ID <$> rows.
Proof.
  induction rows as [|r rows IH]; csimpl; [reflexivity|].
  now rewrite sql_update_status_ID, IH.
Qed.

Lemma sql_update_status_other now status id (rows : list BuildRequest) :
  id ∉ ID <$> rows -> sql_update_status now status id <$> rows = rows.
Proof.
  induction rows as [|r rows IH]; csimpl; [reflexivity|].
  intros Hnot. apply not_elem_of_cons in Hnot as [Hne Hnot].
  rewrite IH by exact Hnot. unfold sql_update_status.
  destruct (Z.eqb_spec (ID r) id); [congruence | reflexivity].
Qed.

Lemma sql_select_by_id_None (rows : list BuildRequest) id :
  sql_select_by_id rows id = None <-> id ∉ ID <$> rows.
Proof.
  unfold sql_select_by_id.
  induction rows as [|r rows IH]; csimpl.
  - split; [intros _; apply not_elem_of_nil | reflexivity].
  - rewrite not_elem_of_cons.
    destruct (Z.eqb_spec (ID r) id) as [Heq|Hne].
    + split; [discriminate | intros [Hne _]; congruence].
    + rewrite IH. split; [intros Hn; split; [congruence | exact Hn] | tauto].
Qed.

Lemma sql_select_by_id_Some (rows : list BuildRequest) id row :
  sql_select_by_id rows id = Some row -> row ∈ rows /\ ID row = id.
Proof.
  unfold sql_select_by_id. intros Hf. apply find_some in Hf as [Hin Hid].
  split; [apply list_elem_of_In; exact Hin | apply Z.eqb_eq; exact Hid].
Qed.

Lemma sql_select_by_id_updated now status id (rows : list BuildRequest) :
  sql_select_by_id (sql_update_status now status id <$> rows) id
  = sql_update_status now status id <$> sql_select_by_id rows id.
Proof.
  unfold sql_select_by_id.
  induction rows as [|r rows IH]; csimpl; [reflexivity|].
  rewrite sql_update_status_ID.
  destruct (ID r =? id); [reflexivity | exact IH].
Qed.

Lemma sql_select_by_id_inserted (rows : list BuildRequest) id b :
  id ∉ ID <$> rows ->
  sql_select_by_id (sql_insert rows id b) id = Some (set_ID id b).
Proof.
  unfold sql_select_by_id, sql_insert.
  induction rows as [|r rows IH]; csimpl; intros Hnot.
  - now rewrite Z.eqb_refl.
  - apply not_elem_of_cons in Hnot as [Hne Hnot].
    destruct (Z.eqb_spec (ID r) id); [congruence | apply IH; exact Hnot].
Qed.

Lemma fresh_ids_not_seq pg :
  fresh_ids pg -> builds_id_seq pg ∉ ID <$> builds pg.
Proof.
  intros [_ Hlt] Hin. apply list_elem_of_fmap in Hin as (r & Heq & Hr).
  rewrite Forall_forall in Hlt. specialize (Hlt r Hr). lia.
Qed.

Lemma fresh_ids_same pg pg' :
  builds pg' = builds pg -> builds_id_seq pg' = builds_id_seq pg ->
  fresh_ids pg -> fresh_ids pg'.
Proof. unfold fresh_ids. intros -> ->. tauto. Qed.

Lemma fresh_ids_create b pg : fresh_ids pg -> fresh_ids (snd (pgCreateBuild b pg)).
Proof.
  intros Hfresh. unfold pgCreateBuild.
  destruct (refuse (reply pg)); simpl; [exact Hfresh|].
  pose proof (fresh_ids_not_seq pg Hfresh) as Hnot.
  destruct Hfresh as [Hnodup Hlt]. unfold fresh_ids, sql_insert; simpl.
  split.
  - rewrite fmap_app. simpl. apply NoDup_app. split; [exact Hnodup|].
    split; [|apply NoDup_singleton].
    intros x Hx Hx'. apply list_elem_of_singleton in Hx'. subst. auto.
  - apply Forall_app. split.
    + eapply Forall_impl; [exact Hlt|]. simpl. intros; lia.
    + apply Forall_singleton. simpl. lia.
Qed.

Lemma fresh_ids_update id status pg :
  fresh_ids pg -> fresh_ids (snd (pgUpdateBuildStatus id status pg)).
Proof.
  intros Hfresh. unfold pgUpdateBuildStatus.
  destruct (refuse (reply pg)); simpl; [exact Hfresh|].
  destruct Hfresh as [Hnodup Hlt]. unfold fresh_ids; simpl.
  rewrite sql_update_status_IDs. split; [exact Hnodup|].
  apply Forall_fmap. eapply Forall_impl; [exact Hlt|]. simpl.
  intros r Hr. now rewrite sql_update_status_ID.
Qed.

Lemma pgGetBuild_store id pg :
  builds (snd (pgGetBuild id pg)) = builds pg
  /\ builds_id_seq (snd (pgGetBuild id pg)) = builds_id_seq pg.
Proof.
  unfold pgGetBuild. destruct (refuse (reply pg)); simpl; [auto|].
  destruct (sql_select_by_id (builds pg) id); simpl; auto.
Qed.

Lemma pgListBuilds_store pg :
  builds (snd (pgListBuilds pg)) = builds pg
  /\ builds_id_seq (snd (pgListBuilds pg)) = builds_id_seq pg.
Proof. unfold pgListBuilds. destruct (refuse (reply pg)); simpl; auto. Qed.

(** X1. Every method of the store keeps the identifiers of the rows
    pairwise different and below the next value of the sequence. *)
Theorem store_keeps_fresh_ids (pg : PostgreSQLDatabase)
    (b : BuildRequest) (id : Z) (status : string) :
  fresh_ids pg ->
  fresh_ids (snd (CreateBuild b pg))
  /\ fresh_ids (snd (GetBuild id pg))
  /\ fresh_ids (snd (ListBuilds pg))
  /\ fresh_ids (snd (UpdateBuildStatus id status pg))
  /\ fresh_ids (snd (Ping pg)).
Proof.
  intros Hfresh. simpl. split; [apply fresh_ids_create; exact Hfresh|].
  split; [eapply fresh_ids_same; [apply pgGetBuild_store.. | exact Hfresh]|].
  split; [eapply fresh_ids_same; [apply pgListBuilds_store.. | exact Hfresh]|].
  split; [apply fresh_ids_update; exact Hfresh | exact Hfresh].
Qed.

Lemma fresh_ids_sample :
  fresh_ids (mkPg [Sample.queued_demo] 2 0 Sample.accepting).
Proof.
  split; simpl.
  - apply NoDup_singleton.
  - apply Forall_singleton. simpl. lia.
Qed.

Lemma store_keeps_fresh_ids_witness :
  fresh_ids (snd (CreateBuild Sample.demo
                    (mkPg [Sample.queued_demo] 2 0 Sample.accepting))).
Proof.
  exact (proj1 (store_keeps_fresh_ids
                  (mkPg [Sample.queued_demo] 2 0 Sample.accepting)
                  Sample.demo 0 "" fresh_ids_sample)).
Defined.

(** X2. Create, then get: when the server accepts both statements, the
    build read back under the identifier [CreateBuild] returned is the
    build that was created, carrying that identifier. *)
Theorem create_then_get (pg : PostgreSQLDatabase) (b : BuildRequest) :
  fresh_ids pg ->
  refuse (reply pg) = None ->
  refuse (server pg (S (statements pg))) = None ->
  let created := CreateBuild b pg in
  let id := fst (fst created) in
  snd (fst created) = None
  /\ id = builds_id_seq pg
  /\ fst (GetBuild id (snd created)) = (Some (set_ID id b), None).
Proof.
  intros Hfresh Hfirst Hsecond. simpl. unfold pgCreateBuild.
  rewrite Hfirst. simpl. split; [reflexivity|]. split; [reflexivity|].
  unfold pgGetBuild, reply. simpl. rewrite Hsecond.
  rewrite sql_select_by_id_inserted by (apply fresh_ids_not_seq; exact Hfresh).
  reflexivity.
Qed.

Lemma create_then_get_witness :
  fst (GetBuild 2 (snd (CreateBuild Sample.demo
                          (mkPg [Sample.queued_demo] 2 0 Sample.accepting))))
  = (Some (set_ID 2 Sample.demo), None).
Proof.
  exact (proj2 (proj2 (create_then_get
                         (mkPg [Sample.queued_demo] 2 0 Sample.accepting)
                         Sample.demo fresh_ids_sample eq_refl eq_refl))).
Defined.

(** X3. When the server accepts the query, [GetBuild] reports "build not
    found", with no build, exactly when no row has the identifier;
    otherwise it returns a row of the table with that identifier and no
    error. *)
Theorem GetBuild_found_or_not (pg : PostgreSQLDatabase) (id : Z) :
  refuse (reply pg) = None ->
  (fst (GetBuild id pg) = (None, Some "build not found")
   <-> id ∉ ID <$> builds pg)
  /\ (id ∈ ID <$> builds pg ->
      exists row, fst (GetBuild id pg) = (Some row, None)
                  /\ row ∈ builds pg /\ ID row = id).
Proof.
  intros Hok. simpl. unfold pgGetBuild. rewrite Hok.
  destruct (sql_select_by_id (builds pg) id) as [row|] eqn:Hrow; simpl.
  - destruct (sql_select_by_id_Some _ _ _ Hrow) as [Hin Hid].
    assert (id ∈ ID <$> builds pg) as Hmem.
    { apply list_elem_of_fmap. exists row. auto. }
    split; [split; [discriminate | contradiction]|]. eauto.
  - apply sql_select_by_id_None in Hrow.
    split; [tauto | contradiction].
Qed.

Lemma GetBuild_found_or_not_witness :
  fst (GetBuild 999 (mkPg [Sample.queued_demo] 2 0 Sample.accepting))
  = (None, Some "build not found").
Proof.
  apply (proj1 (GetBuild_found_or_not
                  (mkPg [Sample.queued_demo] 2 0 Sample.accepting) 999
                  eq_refl)).
  simpl. intros Hin. apply list_elem_of_singleton in Hin. discriminate.
Defined.

(** X4. [UpdateBuildStatus] for an identifier no row has changes no row and
    returns what the server answered: with the statement accepted that is
    no error, so the caller is not told that nothing was updated. *)
Theorem UpdateBuildStatus_unknown_id (pg : PostgreSQLDatabase) (id : Z)
    (status : string) :
  id ∉ ID <$> builds pg ->
  builds (snd (UpdateBuildStatus id status pg)) = builds pg
  /\ fst (UpdateBuildStatus id status pg) = refuse (reply pg).
Proof.
  intros Hnot. simpl. unfold pgUpdateBuildStatus.
  destruct (refuse (reply pg)); simpl; [auto|].
  now rewrite sql_update_status_other.
Qed.

Lemma UpdateBuildStatus_unknown_id_witness :
  builds (snd (UpdateBuildStatus 999 "success"
                 (mkPg [Sample.queued_demo] 2 0 Sample.accepting)))
  = [Sample.queued_demo]
  /\ fst (UpdateBuildStatus 999 "success"
            (mkPg [Sample.queued_demo] 2 0 Sample.accepting)) = None.
Proof.
  apply (UpdateBuildStatus_unknown_id
           (mkPg [Sample.queued_demo] 2 0 Sample.accepting) 999 "success").
  simpl. intros Hin. apply list_elem_of_singleton in Hin. discriminate.
Defined.

(** X5. Update, then get: when the server accepts both statements and a row
    has the identifier, the build read back is that row with the new status
    and the server's time of the update; every other field is as before. *)
Theorem update_then_get (pg : PostgreSQLDatabase) (id : Z) (status : string)
    (row : BuildRequest) :
  refuse (reply pg) = None ->
  refuse (server pg (S (statements pg))) = None ->
  sql_select_by_id (builds pg) id = Some row ->
  fst (GetBuild id (snd (UpdateBuildStatus id status pg)))
  = (Some (mkBuildRequest (ID row) (ProjectName row) (GitURL row)
             (Branch row) status (CreatedAt row) (NOW (reply pg))),
     None).
Proof.
  intros Hfirst Hsecond Hrow. simpl. unfold pgUpdateBuildStatus.
  rewrite Hfirst. simpl. unfold pgGetBuild, reply at 1. simpl.
  rewrite Hsecond, sql_select_by_id_updated, Hrow. simpl.
  destruct (sql_select_by_id_Some _ _ _ Hrow) as [_ Hid].
  unfold sql_update_status. subst id. rewrite Z.eqb_refl. reflexivity.
Qed.

Lemma update_then_get_witness :
  fst (GetBuild 1 (snd (UpdateBuildStatus 1 "running"
                          (mkPg [Sample.queued_demo] 2 0 Sample.accepting))))
  = (Some (mkBuildRequest 1 "demo" "https://x/y.git" "main" "running" 0 1000),
     None).
Proof.
  exact (update_then_get (mkPg [Sample.queued_demo] 2 0 Sample.accepting)
           1 "running" Sample.queued_demo eq_refl eq_refl eq_refl).
Defined.

(** X6. Two accepted updates of the same build leave the table as the
    second one alone would: the last status written wins, whatever the two
    statuses are, so the store itself does not keep a build from going back
    from a terminal status. *)
Theorem UpdateBuildStatus_last_wins (pg : PostgreSQLDatabase) (id : Z)
    (s1 s2 : string) :
  refuse (reply pg) = None ->
  refuse (server pg (S (statements pg))) = None ->
  builds (snd (UpdateBuildStatus id s2 (snd (UpdateBuildStatus id s1 pg))))
  = sql_update_status (NOW (server pg (S (statements pg)))) s2 id
      <$> builds pg.
Proof.
  intros Hfirst Hsecond. simpl. unfold pgUpdateBuildStatus.
  rewrite Hfirst. simpl. unfold reply. simpl. rewrite Hsecond. simpl.
  rewrite <- list_fmap_compose. apply list_fmap_ext. intros i r _. simpl.
  unfold sql_update_status.
  destruct (Z.eqb_spec (ID r) id) as [Heq|Hne]; simpl.
  - rewrite Heq, Z.eqb_refl. reflexivity.
  - destruct (Z.eqb_spec (ID r) id); [contradiction | reflexivity].
Qed.

Lemma UpdateBuildStatus_last_wins_witness :
  builds (snd (UpdateBuildStatus 1 "queued"
                 (snd (UpdateBuildStatus 1 "success"
                         (mkPg [Sample.queued_demo] 2 0 Sample.accepting)))))
  = [mkBuildRequest 1 "demo" "https://x/y.git" "main" "queued" 0 1000].
Proof.
  exact (UpdateBuildStatus_last_wins
           (mkPg [Sample.queued_demo] 2 0 Sample.accepting) 1
           "success" "queued" eq_refl eq_refl).
Defined.

(** X7. With at most 100 rows in the table and the query accepted,
    [ListBuilds] returns every row, each as often as the table has it. *)
Theorem ListBuilds_all_when_few (pg : PostgreSQLDatabase) :
  refuse (reply pg) = None ->
  (length (builds pg) <= 100)%nat ->
  snd (fst (ListBuilds pg)) = None
  /\ fst (fst (ListBuilds pg)) ≡ₚ builds pg.
Proof.
  intros Hok Hfew. simpl. unfold pgListBuilds. rewrite Hok. simpl.
  split; [reflexivity|]. unfold sql_select_recent.
  rewrite take_ge.
  - apply merge_sort_Permutation.
  - now rewrite merge_sort_Permutation.
Qed.

Lemma ListBuilds_all_when_few_witness :
  fst (fst (ListBuilds (mkPg [Sample.queued_demo] 2 0 Sample.accepting)))
  ≡ₚ [Sample.queued_demo].
Proof.
  apply (ListBuilds_all_when_few
           (mkPg [Sample.queued_demo] 2 0 Sample.accepting) eq_refl).
  simpl. lia.
Defined.

Lemma BuildRequest_eq_dec (a b : BuildRequest) : {a = b} + {a <> b}.
Proof.
  destruct a as [i1 p1 g1 b1 s1 c1 u1], b as [i2 p2 g2 b2 s2 c2 u2].
  destruct (decide (i1 = i2)); [|right; congruence].
  destruct (decide (p1 = p2)); [|right; congruence].
  destruct (decide (g1 = g2)); [|right; congruence].
  destruct (decide (b1 = b2)); [|right; congruence].
  destruct (decide (s1 = s2)); [|right; congruence].
  destruct (decide (c1 = c2)); [|right; congruence].
  destruct (decide (u1 = u2)); [|right; congruence].
  left; congruence.
Qed.

(** X8. A row created later than every other row of the table is the
    first one [ListBuilds] returns. *)
Theorem ListBuilds_newest_is_first (pg : PostgreSQLDatabase)
    (r : BuildRequest) :
  refuse (reply pg) = None ->
  r ∈ builds pg ->
  (forall r', r' ∈ builds pg -> r' <> r -> CreatedAt r' < CreatedAt r) ->
  head (fst (fst (ListBuilds pg))) = Some r.
Proof.
  intros Hok Hin Hnewest. simpl. unfold pgListBuilds. rewrite Hok. simpl.
  unfold sql_select_recent.
  pose proof (@StronglySorted_merge_sort _ newer_first _ newer_first_trans
                newer_first_total (builds pg)) as Hsorted.
  pose proof (merge_sort_Permutation newer_first (builds pg)) as Hperm.
  destruct (merge_sort newer_first (builds pg)) as [|h sorted] eqn:Hms.
  - rewrite <- Hperm in Hin. apply elem_of_nil in Hin. contradiction.
  - simpl. f_equal.
    destruct (BuildRequest_eq_dec h r) as [Heq|Hne]; [exact Heq|].
    exfalso.
    assert (h ∈ builds pg) as Hh by (rewrite <- Hperm; left).
    specialize (Hnewest h Hh Hne).
    rewrite <- Hperm in Hin. apply elem_of_cons in Hin as [Heq|Hin].
    + congruence.
    + apply StronglySorted_cons in Hsorted as [Hall _].
      rewrite Forall_forall in Hall. specialize (Hall r Hin).
      unfold newer_first in Hall. lia.
Qed.

Lemma ListBuilds_newest_is_first_witness :
  let older := mkBuildRequest 1 "demo" "https://x/y.git" "main" "success" 5 9 in
  let newer := mkBuildRequest 2 "demo" "https://x/y.git" "main" "queued" 7 7 in
  head (fst (fst (ListBuilds (mkPg [older; newer] 3 0 Sample.accepting))))
  = Some newer.
Proof.
  intros older newer.
  apply (ListBuilds_newest_is_first
           (mkPg [older; newer] 3 0 Sample.accepting) newer eq_refl).
  - right. left.
  - intros r' Hin Hne. simpl in Hin.
    apply elem_of_cons in Hin as [->|Hin]; [reflexivity|].
    apply list_elem_of_singleton in Hin. contradiction.
Defined.

(** ** More on the handlers and the task, for any persistence port *)

Section MoreServiceFacts.

Context {DB : Type} `{DatabaseInterface DB}.

Implicit Types (w : World DB) (build : BuildRequest).

(** X9. [createBuildHandler] answers 201, 400 or 500.  With 201 it has
    started exactly one task, on the very record it returned, which is
    "queued" and carries the identifier the port returned, and logged
    nothing; with 400 it has changed nothing at all; with 500 it has logged
    once, and what it logged is the error the port returned for the record
    submitted, started no task and changed no metric.  It never calls the
    port more than once. *)
Theorem createBuildHandler_answers decoded w :
  let resp := fst (createBuildHandler decoded w) in
  let w' := snd (createBuildHandler decoded w) in
  (length (port_calls w') <= S (length (port_calls w)))%nat
  /\ ((code resp = StatusCreated
       /\ logged w' = logged w
       /\ exists req built b,
            decoded = Some req
            /\ ProjectName built = ProjectName req
            /\ GitURL built = GitURL req
            /\ fst (CreateBuild built (db w)) = (ID b, None)
            /\ db w' = snd (CreateBuild built (db w))
            /\ body resp = JsonBuild b
            /\ goroutines w' = goroutines w ++ [b]
            /\ Status b = "queued")
      \/ (code resp = StatusBadRequest /\ w' = w)
      \/ (code resp = StatusInternalServerError
          /\ goroutines w' = goroutines w
          /\ metrics w' = metrics w
          /\ exists req built id e,
               decoded = Some req
               /\ ProjectName built = ProjectName req
               /\ GitURL built = GitURL req
               /\ fst (CreateBuild built (db w)) = (id, Some e)
               /\ db w' = snd (CreateBuild built (db w))
               /\ logged w' =
                    logged w
                    ++ [Printf "Error creating build: %v" [ArgErr e]])).
Proof.
  unfold createBuildHandler. destruct decoded as [req|]; simpl.
  2:{ split; [lia|]. right. left. auto. }
  destruct (String.eqb (ProjectName req) "" || String.eqb (GitURL req) "");
    simpl.
  { split; [lia|]. right. left. auto. }
  run. destruct (CreateBuild _ (db w)) as [[id [e|]] d] eqn:Hcreate; simpl.
  - rewrite length_app. simpl. split; [lia|]. right. right.
    repeat split; auto. eexists req, _, id, e.
    split; [reflexivity|]. rewrite Hcreate. simpl.
    repeat split; auto; destruct (String.eqb (Branch req) ""); reflexivity.
  - rewrite length_app. simpl. split; [lia|]. left.
    split; [reflexivity|]. split; [reflexivity|].
    eexists req, _, _. split; [reflexivity|]. rewrite Hcreate. simpl.
    split; [|split; [|split; [|split; [|split; [reflexivity|split]]]]];
      try reflexivity; destruct (String.eqb (Branch req) ""); reflexivity.
Qed.

(** X10. The outcome is counted before it is stored: once the write of
    "running" is accepted, the task adds one to the counter of its terminal
    status, whether or not the write of that status is then accepted; when
    the write of "running" is refused, no counter changes. *)
Theorem processBuild_counts_outcome build w :
  let w' := snd (processBuild build w) in
  let counts := BuildsTotal (metrics w) in
  match fst (UpdateBuildStatus (ID build) "running" (db w)) with
  | Some _ => BuildsTotal (metrics w') = counts
  | None =>
      let s := if len (ProjectName build) mod 10 =? 0
               then "failed" else "success" in
      BuildsTotal (metrics w') =
        <[s := S (default 0%nat (counts !! s))]> counts
  end.
Proof.
  run_task.
  destruct (UpdateBuildStatus (ID build) "running" (db w)) as [[e|] d];
    simpl; [reflexivity|].
  destruct (len (ProjectName build) mod 10 =? 0); simpl;
    match goal with
    | |- context [UpdateBuildStatus ?i ?s d] =>
        destruct (UpdateBuildStatus i s d) as [[e2|] d2]
    end; reflexivity.
Qed.

(** X11. The task sleeps only after the write of "running" was accepted,
    and then once, for [2 + len(ProjectName) % 4] seconds, which is between
    2 and 5. *)
Theorem processBuild_sleeps build w :
  let w' := snd (processBuild build w) in
  match fst (UpdateBuildStatus (ID build) "running" (db w)) with
  | Some _ => slept w' = slept w
  | None =>
      exists d, slept w' = slept w ++ [d]
                /\ d = 2 + len (ProjectName build) mod 4
                /\ 2 <= d <= 5
  end.
Proof.
  run_task.
  destruct (UpdateBuildStatus (ID build) "running" (db w)) as [[e|] d];
    simpl; [reflexivity|].
  exists (2 + len (ProjectName build) mod 4).
  split; [|split; [reflexivity|]].
  - destruct (len (ProjectName build) mod 10 =? 0); simpl;
      match goal with
      | |- context [UpdateBuildStatus ?i ?s d] =>
          destruct (UpdateBuildStatus i s d) as [[e2|] d2]
      end; reflexivity.
  - pose proof (Z.mod_pos_bound (len (ProjectName build)) 4). lia.
Qed.

(** X12. The duration the task observes is the clock reading at its exit
    minus the one at its entry: the third reading after entry when the
    write of "running" was accepted, the second when it was refused.  With
    a clock that does not go back it is not negative. *)
Theorem processBuild_duration build w :
  let w' := snd (processBuild build w) in
  let k := match fst (UpdateBuildStatus (ID build) "running" (db w)) with
           | Some _ => 2%nat
           | None => 3%nat
           end in
  reads w' = (reads w + S k)%nat
  /\ BuildDuration (metrics w') =
       BuildDuration (metrics w) ++
         [(ProjectName build,
           clock w (reads w + k)%nat - clock w (reads w))]
  /\ ((forall n m, (n <= m)%nat -> clock w n <= clock w m) ->
      0 <= clock w (reads w + k)%nat - clock w (reads w)).
Proof.
  run_task.
  destruct (UpdateBuildStatus (ID build) "running" (db w)) as [[e|] d];
    simpl.
  - replace (reads w + 2)%nat with (S (S (reads w))) by lia.
    replace (reads w + 3)%nat with (S (S (S (reads w)))) by lia.
    repeat split; auto.
    intros Hmono. specialize (Hmono (reads w) (S (S (reads w)))). lia.
  - replace (reads w + 3)%nat with (S (S (S (reads w)))) by lia.
    replace (reads w + 4)%nat with (S (S (S (S (reads w))))) by lia.
    destruct (len (ProjectName build) mod 10 =? 0); simpl;
      match goal with
      | |- context [UpdateBuildStatus ?i ?s d] =>
          destruct (UpdateBuildStatus i s d) as [[e2|] d2]
      end; simpl; (repeat split; auto);
      intros Hmono; specialize (Hmono (reads w) (S (S (S (reads w))))); lia.
Qed.

(** X13. The two reading handlers change no metric, start no task and
    never sleep; each calls the port at most once.  [getBuildHandler] does
    not call it at all when the identifier is missing or is not an
    integer, and logs an error only with the answer 500. *)
Theorem read_handlers_are_quiet (vars : gmap string string) w :
  let got := getBuildHandler vars w in
  let listed := listBuildsHandler w in
  metrics (snd got) = metrics w
  /\ goroutines (snd got) = goroutines w
  /\ slept (snd got) = slept w
  /\ (length (port_calls (snd got)) <= S (length (port_calls w)))%nat
  /\ (vars !! "id" ≫= Atoi = None -> snd got = w)
  /\ (code (fst got) <> StatusInternalServerError ->
      logged (snd got) = logged w)
  /\ metrics (snd listed) = metrics w
  /\ goroutines (snd listed) = goroutines w
  /\ slept (snd listed) = slept w
  /\ length (port_calls (snd listed)) = S (length (port_calls w)).
Proof.
  assert (let listed := listBuildsHandler w in
          metrics (snd listed) = metrics w
          /\ goroutines (snd listed) = goroutines w
          /\ slept (snd listed) = slept w
          /\ length (port_calls (snd listed)) = S (length (port_calls w)))
    as Hlist.
  { unfold listBuildsHandler. run.
    destruct (ListBuilds (db w)) as [[rows [e|]] d]; simpl;
      rewrite length_app; simpl; repeat split; auto; lia. }
  simpl in *. destruct Hlist as (? & ? & ? & ?).
  cut (let got := getBuildHandler vars w in
       metrics (snd got) = metrics w
       /\ goroutines (snd got) = goroutines w
       /\ slept (snd got) = slept w
       /\ (length (port_calls (snd got)) <= S (length (port_calls w)))%nat
       /\ (vars !! "id" ≫= Atoi = None -> snd got = w)
       /\ (code (fst got) <> StatusInternalServerError ->
           logged (snd got) = logged w)).
  { simpl. intros (? & ? & ? & ? & ? & ?). auto 12. }
  unfold getBuildHandler.
  destruct (vars !! "id") as [idStr|]; simpl.
  2:{ repeat split; auto. }
  destruct (Atoi idStr) as [id|]; simpl.
  2:{ repeat split; auto. }
  run. destruct (GetBuild id (db w)) as [[b [e|]] d]; simpl.
  - destruct (String.eqb e "build not found"); simpl;
      rewrite length_app; simpl; repeat split; auto; try lia;
      try discriminate.
  - rewrite length_app; simpl; repeat split; auto; try lia; discriminate.
Qed.

End MoreServiceFacts.

Lemma read_handlers_are_quiet_witness :
  snd (getBuildHandler {["id" := "invalid"]}
         (Sample.world [Sample.queued_demo] Sample.accepting))
  = Sample.world [Sample.queued_demo] Sample.accepting.
Proof.
  destruct (read_handlers_are_quiet {["id" := "invalid"]}
              (Sample.world [Sample.queued_demo] Sample.accepting))
    as (_ & _ & _ & _ & Hsame & _).
  apply Hsame. reflexivity.
Defined.

Lemma processBuild_duration_witness :
  0 <= Sample.ticking 3 - Sample.ticking 0.
Proof.
  destruct (processBuild_duration Sample.queued_demo
              (Sample.world [Sample.queued_demo] Sample.accepting))
    as (_ & _ & Hpos).
  apply Hpos. intros n m Hnm. simpl. unfold Sample.ticking. lia.
Defined.

(** X14. What the client sends as [id], [status], [created_at] and
    [updated_at] has no effect: two submissions with the same project name,
    git URL and branch get the same answer and leave the same table, the
    same metrics and the same task behind. *)
Theorem createBuildHandler_ignores_client_fields (r1 r2 : BuildRequest)
    (w : World PostgreSQLDatabase) :
  ProjectName r1 = ProjectName r2 ->
  GitURL r1 = GitURL r2 ->
  Branch r1 = Branch r2 ->
  let out1 := createBuildHandler (Some r1) w in
  let out2 := createBuildHandler (Some r2) w in
  fst out1 = fst out2
  /\ db (snd out1) = db (snd out2)
  /\ metrics (snd out1) = metrics (snd out2)
  /\ goroutines (snd out1) = goroutines (snd out2).
Proof.
  intros Hp Hg Hb. unfold createBuildHandler. rewrite Hp, Hg, Hb.
  destruct (String.eqb (ProjectName r2) "" || String.eqb (GitURL r2) "");
    simpl; [auto|].
  run. unfold pgCreateBuild.
  destruct (refuse (reply (db w))); simpl; [auto|].
  unfold sql_insert, set_ID, set_UpdatedAt, set_CreatedAt, set_Status; simpl.
  destruct (String.eqb (Branch r2) ""); simpl; rewrite ?Hp, ?Hg, ?Hb; auto.
Qed.

Lemma createBuildHandler_ignores_client_fields_witness :
  fst (createBuildHandler
         (Some (mkBuildRequest 77 "demo" "https://x/y.git" "" "success" 5 6))
         (Sample.world [] Sample.accepting))
  = fst (createBuildHandler (Some Sample.demo)
           (Sample.world [] Sample.accepting)).
Proof.
  exact (proj1 (createBuildHandler_ignores_client_fields
                  (mkBuildRequest 77 "demo" "https://x/y.git" ""
                     "success" 5 6)
                  Sample.demo (Sample.world [] Sample.accepting)
                  eq_refl eq_refl eq_refl)).
Defined.

(** ** The health probe and the construction of the service *)

Section HealthFacts.

Context {DB : Type} `{DatabaseInterface DB}.

(** What [healthHandler] does, by the answer of [Ping]. *)
Lemma healthHandler_run (rw : ResponseWriter) (w : World DB) :
  wrote rw = None ->
  let rw' := fst (healthHandler rw w) in
  let w' := snd (healthHandler rw w) in
  let up := match fst (Ping (db w)) with None => true | Some _ => false end in
  wrote rw' =
    Some (if up then StatusOK else StatusServiceUnavailable,
          match kind rw, encoded rw with
          | ServerWriter, [] => with_detected (Header rw)
          | _, _ => Header rw
          end)
  /\ Header rw' = <["Content-Type" := "application/json"]> (Header rw)
  /\ metrics w' = HealthCheck_Set (if up then 1 else 0) (metrics w)
  /\ db w' = snd (Ping (db w))
  /\ (exists health,
        encoded rw' = encoded rw ++ [health]
        /\ health !! "status" =
             Some (HString (if up then "healthy" else "unhealthy"))
        /\ health !! "database" =
             Some (HString (if up then "connected" else "disconnected"))
        /\ health !! "service" = Some (HString "build-service")
        /\ health !! "timestamp" = Some (HTime (clock w (reads w))))
  /\ goroutines w' = goroutines w
  /\ port_calls w' = port_calls w
  /\ logged w' = logged w
  /\ slept w' = slept w.
Proof.
  intros Hfresh. unfold healthHandler, db_Ping. run.
  destruct (Ping (db w)) as [[e|] d]; simpl;
    unfold Encode, Header_Set, WriteHeader; simpl; rewrite Hfresh; simpl;
    destruct (kind rw), (encoded rw); simpl;
    repeat split; auto; eexists; (split; [reflexivity|]);
    repeat split; reflexivity.
Qed.

(** X15. On a writer to which nothing was written yet, [healthHandler]
    answers 200 when [Ping] returns no error and 503 when it returns one;
    it sets the health gauge to 1, respectively 0, whatever it was before,
    and reports "healthy"/"connected", respectively
    "unhealthy"/"disconnected".  It changes no other metric, starts no
    task and logs nothing. *)
Theorem healthHandler_reports_ping (rw : ResponseWriter) (w : World DB) :
  wrote rw = None ->
  let rw' := fst (healthHandler rw w) in
  let w' := snd (healthHandler rw w) in
  let up := match fst (Ping (db w)) with None => true | Some _ => false end in
  (exists hdr, wrote rw' =
                 Some (if up then StatusOK else StatusServiceUnavailable, hdr))
  /\ HealthCheck (metrics w') = (if up then 1 else 0)
  /\ (exists health,
        encoded rw' = encoded rw ++ [health]
        /\ health !! "status" =
             Some (HString (if up then "healthy" else "unhealthy"))
        /\ health !! "database" =
             Some (HString (if up then "connected" else "disconnected")))
  /\ BuildsTotal (metrics w') = BuildsTotal (metrics w)
  /\ BuildDuration (metrics w') = BuildDuration (metrics w)
  /\ ActiveBuilds (metrics w') = ActiveBuilds (metrics w)
  /\ goroutines w' = goroutines w
  /\ logged w' = logged w.
Proof.
  intros Hfresh.
  pose proof (healthHandler_run rw w Hfresh) as Hrun. simpl in *.
  destruct Hrun
    as (Hw & _ & Hm & _ & (health & He & Hs & Hd & _) & Hg & _ & Hl & _).
  rewrite Hm. split; [eauto|]. split; [reflexivity|].
  split; [eauto|]. auto.
Qed.

(** X16. [healthHandler] sets the content type after it has written the
    status, so "application/json" is in the header map afterwards but is
    not the content type sent with the answer, unless the writer had it
    before the call.  On a writer with no content type and no body yet, the
    server sends the type it detects, "text/plain; charset=utf-8", and the
    recorder of the tests sends none. *)
Theorem healthHandler_content_type_not_sent (rw : ResponseWriter)
    (w : World DB) :
  wrote rw = None ->
  Header rw !! "Content-Type" <> Some "application/json" ->
  let rw' := fst (healthHandler rw w) in
  Header rw' !! "Content-Type" = Some "application/json"
  /\ exists c sent,
       wrote rw' = Some (c, sent)
       /\ sent !! "Content-Type" <> Some "application/json"
       /\ (Header rw !! "Content-Type" = None -> encoded rw = [] ->
           sent !! "Content-Type" =
             match kind rw with
             | ServerWriter => Some "text/plain; charset=utf-8"
             | Recorder => None
             end).
Proof.
  intros Hfresh Hnot.
  pose proof (healthHandler_run rw w Hfresh) as Hrun. simpl in *.
  destruct Hrun as (Hw & Hh & _). rewrite Hh, Hw.
  split; [apply lookup_insert_eq|]. eexists _, _. split; [reflexivity|].
  split.
  - destruct (kind rw), (encoded rw); try exact Hnot.
    unfold with_detected.
    destruct (Header rw !! "Content-Type") as [ct|] eqn:Hct.
    + rewrite Hct. exact Hnot.
    + rewrite lookup_insert_eq. discriminate.
  - intros Hnone ->. destruct (kind rw); [|exact Hnone].
    unfold with_detected. rewrite Hnone. apply lookup_insert_eq.
Qed.

End HealthFacts.

Lemma healthHandler_reports_ping_witness :
  HealthCheck (metrics (snd (healthHandler NewRecorder
                               (Sample.world [] Sample.refusing)))) = 0.
Proof.
  exact (proj1 (proj2 (healthHandler_reports_ping NewRecorder
                         (Sample.world [] Sample.refusing) eq_refl))).
Defined.

Lemma healthHandler_content_type_not_sent_witness :
  (exists c sent,
     wrote (fst (healthHandler NewServerResponse
                   (Sample.world [] Sample.accepting))) = Some (c, sent)
     /\ sent !! "Content-Type" = Some "text/plain; charset=utf-8")
  /\ (exists c sent,
        wrote (fst (healthHandler NewRecorder
                      (Sample.world [] Sample.accepting))) = Some (c, sent)
        /\ sent !! "Content-Type" = None).
Proof.
  split.
  - destruct (healthHandler_content_type_not_sent NewServerResponse
                (Sample.world [] Sample.accepting) eq_refl)
      as (_ & c & sent & Hw & _ & Hsent); [discriminate|].
    exists c, sent. split; [exact Hw | exact (Hsent eq_refl eq_refl)].
  - destruct (healthHandler_content_type_not_sent NewRecorder
                (Sample.world [] Sample.accepting) eq_refl)
      as (_ & c & sent & Hw & _ & Hsent); [discriminate|].
    exists c, sent. split; [exact Hw | exact (Hsent eq_refl eq_refl)].
Defined.

(** X17. [NewBuildServiceWithRegistry] succeeds exactly on a registry that
    has none of the four metric names; the service then has the store it
    was given, no count, no observation, no active build and the health
    gauge at 1, and the registry has the four names in addition.  A second
    service on the same registry, with whichever constructor, panics. *)
Theorem NewBuildService_once {DB : Type} (d : DB) (registry : gset string) :
  let names : gset string :=
    {["builds_total"; "build_duration_seconds"; "active_builds";
      "health_status"]} in
  (names ∩ registry = ∅ ->
   NewBuildServiceWithRegistry d registry =
     Some (mkBuildService d (mkMetrics ∅ [] 0 1), names ∪ registry)
   /\ forall d2 : DB,
        NewBuildServiceWithRegistry d2 (names ∪ registry) = None
        /\ NewBuildService d2 (names ∪ registry) = None)
  /\ (names ∩ registry <> ∅ -> NewBuildServiceWithRegistry d registry = None).
Proof.
  intros names.
  assert (forall x : string,
            x ∈ names <->
            x = "builds_total" \/ x = "build_duration_seconds"
            \/ x = "active_builds" \/ x = "health_status") as Hnames.
  { intros x. unfold names.
    rewrite !elem_of_union, !elem_of_singleton. tauto. }
  assert (names ∩ registry = ∅ <->
          ("builds_total" ∉ registry) /\ ("build_duration_seconds" ∉ registry)
          /\ ("active_builds" ∉ registry) /\ ("health_status" ∉ registry))
    as Hdisjoint.
  { split.
    - intros Hempty.
      assert (forall x, x ∈ names -> x ∉ registry) as Hout.
      { intros x Hx Hr.
        apply (not_elem_of_empty (C:=gset string) x). rewrite <- Hempty.
        apply elem_of_intersection. auto. }
      repeat split; apply Hout, Hnames; auto.
    - intros (H1 & H2 & H3 & H4). apply set_eq. intros x.
      rewrite elem_of_intersection, Hnames.
      split; [|intros Hx; apply elem_of_empty in Hx; contradiction].
      intros [[->|[->|[->| ->]]] Hr]; contradiction. }
  assert (forall reg : gset string,
            "builds_total" ∉ reg -> "build_duration_seconds" ∉ reg ->
            "active_builds" ∉ reg -> "health_status" ∉ reg ->
            Register NewMetrics reg = Some (names ∪ reg)) as Hregister.
  { intros reg H1 H2 H3 H4. unfold Register, MustRegister.
    rewrite decide_False by exact H1.
    rewrite decide_False
      by (rewrite elem_of_union, elem_of_singleton;
          intros [Heq|Hin]; [discriminate | contradiction]).
    rewrite decide_False
      by (rewrite !elem_of_union, !elem_of_singleton;
          intros [Heq|[Heq|Hin]]; [discriminate.. | contradiction]).
    rewrite decide_False
      by (rewrite !elem_of_union, !elem_of_singleton;
          intros [Heq|[Heq|[Heq|Hin]]]; [discriminate.. | contradiction]).
    f_equal. apply set_eq. intros x.
    rewrite !elem_of_union, Hnames, !elem_of_singleton. tauto. }
  split.
  - intros Hempty. apply Hdisjoint in Hempty as (H1 & H2 & H3 & H4).
    split.
    + unfold NewBuildServiceWithRegistry.
      rewrite Hregister by assumption. reflexivity.
    + intros d2.
      unfold NewBuildService, NewBuildServiceWithRegistry, Register,
        MustRegister.
      rewrite decide_True; [auto|].
      apply elem_of_union. left. apply Hnames. auto.
  - intros Hmeet.
    unfold NewBuildServiceWithRegistry, Register, MustRegister.
    destruct (decide ("builds_total" ∈ registry)) as [|H1]; [reflexivity|].
    destruct (decide ("build_duration_seconds" ∈ {["builds_total"]} ∪ registry))
      as [|H2]; [reflexivity|].
    destruct (decide ("active_builds"
                      ∈ {["build_duration_seconds"]}
                        ∪ ({["builds_total"]} ∪ registry)))
      as [|H3]; [reflexivity|].
    destruct (decide ("health_status"
                      ∈ {["active_builds"]}
                        ∪ ({["build_duration_seconds"]}
                           ∪ ({["builds_total"]} ∪ registry))))
      as [|H4]; [reflexivity|].
    exfalso. apply Hmeet, Hdisjoint.
    repeat split; [exact H1 | | |]; intros Hin;
      [apply H2 | apply H3 | apply H4]; rewrite !elem_of_union; auto.
Qed.

Lemma NewBuildService_once_witness :
  exists registry,
    NewBuildServiceWithRegistry (mkPg [] 1 0 Sample.accepting) ∅
    = Some (mkBuildService (mkPg [] 1 0 Sample.accepting)
              (mkMetrics ∅ [] 0 1), registry)
    /\ NewBuildService (mkPg [] 1 0 Sample.accepting) registry = None.
Proof.
  destruct (proj1 (NewBuildService_once (mkPg [] 1 0 Sample.accepting) ∅))
    as [Hfirst Hsecond]; [apply intersection_empty_r_L|].
  eexists. split; [exact Hfirst|].
  exact (proj2 (Hsecond (mkPg [] 1 0 Sample.accepting))).
Defined.

(** ** The service at work: what holds along every schedule *)

Section ScheduleFacts.

Context {DB : Type} `{DatabaseInterface DB}.

Implicit Types (w : World DB) (waiting : list BuildRequest).

(** What a submission leaves behind: nothing, or the effect of one call of
    [CreateBuild] on a record with the name and URL submitted, "queued". *)
Lemma createBuildHandler_effect decoded w :
  let w' := snd (createBuildHandler decoded w) in
  w' = w
  \/ exists req built,
       decoded = Some req
       /\ ProjectName built = ProjectName req /\ ProjectName req <> ""
       /\ GitURL built = GitURL req /\ GitURL req <> ""
       /\ Status built = "queued"
       /\ db w' = snd (CreateBuild built (db w))
       /\ match snd (fst (CreateBuild built (db w))) with
          | Some _ => metrics w' = metrics w /\ goroutines w' = goroutines w
          | None =>
              metrics w' =
                ActiveBuilds_Inc (BuildsTotal_Inc "queued" (metrics w))
              /\ goroutines w' =
                   goroutines w ++
                     [set_ID (fst (fst (CreateBuild built (db w)))) built]
          end.
Proof.
  destruct decoded as [req|]; [|left; reflexivity].
  destruct (String.eqb (ProjectName req) "") eqn:Hp.
  { left. unfold createBuildHandler. rewrite Hp. reflexivity. }
  destruct (String.eqb (GitURL req) "") eqn:Hg.
  { left. unfold createBuildHandler. rewrite Hp, Hg. reflexivity. }
  apply String.eqb_neq in Hp. apply String.eqb_neq in Hg.
  right. pose proof (createBuildHandler_valid req w Hp Hg) as Hv.
  simpl in Hv. destruct Hv as (_ & Hdb & Hres).
  eexists req, _. split; [reflexivity|].
  split; [|split; [exact Hp|]].
  2:{ split; [|split; [exact Hg|]].
      2:{ split; [|split; [exact Hdb|]].
          2:{ destruct (snd (fst (CreateBuild _ (db w)))).
              - destruct Hres as (_ & ? & ?). auto.
              - destruct Hres as (_ & ? & ?). auto. }
          reflexivity. }
      destruct (String.eqb (Branch req) ""); reflexivity. }
  destruct (String.eqb (Branch req) ""); reflexivity.
Qed.

Lemma started_nothing w w' :
  goroutines w' = goroutines w -> started w w' = [].
Proof. unfold started. intros ->. apply drop_all. Qed.

Lemma started_one w w' b :
  goroutines w' = goroutines w ++ [b] -> started w w' = [b].
Proof. unfold started. intros ->. now rewrite drop_app_length. Qed.

Lemma getBuildHandler_frame (vars : gmap string string) w :
  let w' := snd (getBuildHandler vars w) in
  metrics w' = metrics w /\ goroutines w' = goroutines w
  /\ (db w' = db w \/ exists id, db w' = snd (GetBuild id (db w))).
Proof.
  unfold getBuildHandler.
  destruct (vars !! "id") as [idStr|]; simpl; [|auto].
  destruct (Atoi idStr) as [id|]; simpl; [|auto].
  run. destruct (GetBuild id (db w)) as [[b [e|]] d] eqn:Hget; simpl.
  - destruct (String.eqb e "build not found"); simpl; repeat split; auto;
      right; exists id; rewrite Hget; reflexivity.
  - repeat split; auto. right. exists id. rewrite Hget. reflexivity.
Qed.

Lemma listBuildsHandler_frame w :
  let w' := snd (listBuildsHandler w) in
  metrics w' = metrics w /\ goroutines w' = goroutines w
  /\ db w' = snd (ListBuilds (db w)).
Proof.
  unfold listBuildsHandler. run.
  destruct (ListBuilds (db w)) as [[rows [e|]] d]; simpl; auto.
Qed.

Lemma BuildsTotal_Inc_grows (l l' : string) (m : Metrics) :
  (default 0 (BuildsTotal m !! l')
   <= default 0 (BuildsTotal (BuildsTotal_Inc l m) !! l'))%nat.
Proof.
  unfold BuildsTotal_Inc. simpl.
  destruct (decide (l = l')) as [->|Hne].
  - rewrite lookup_insert_eq. simpl. lia.
  - rewrite lookup_insert_ne by exact Hne. lia.
Qed.

(** The counters and the observations after a run of the task. *)
Lemma processBuild_grows build w (l : string) :
  let w' := snd (processBuild build w) in
  (default 0 (BuildsTotal (metrics w) !! l)
   <= default 0 (BuildsTotal (metrics w') !! l))%nat
  /\ BuildDuration (metrics w) `prefix_of` BuildDuration (metrics w').
Proof.
  pose proof (processBuild_metrics build w) as (Hd & _). simpl in *.
  split; [|rewrite Hd; apply prefix_app_r; reflexivity].
  clear Hd. run_task.
  destruct (UpdateBuildStatus (ID build) "running" (db w)) as [[e|] d];
    simpl; [lia|].
  destruct (len (ProjectName build) mod 10 =? 0); simpl;
    match goal with
    | |- context [UpdateBuildStatus ?i ?s d] =>
        destruct (UpdateBuildStatus i s d) as [[e2|] d2]
    end; simpl;
    match goal with
    | |- context [<[?s := _]> _] =>
        exact (BuildsTotal_Inc_grows s l (metrics w))
    end.
Qed.

(** One event: the gauge moves with the number of waiting tasks, no counter
    goes down and no observation is taken back. *)
Lemma dispatch_metrics (ev : Event) w waiting (l : string) :
  let s' := dispatch ev (w, waiting) in
  ActiveBuilds (metrics (fst s')) - Z.of_nat (length (snd s'))
  = ActiveBuilds (metrics w) - Z.of_nat (length waiting)
  /\ (default 0 (BuildsTotal (metrics w) !! l)
      <= default 0 (BuildsTotal (metrics (fst s')) !! l))%nat
  /\ BuildDuration (metrics w) `prefix_of` BuildDuration (metrics (fst s')).
Proof.
  destruct ev as [decoded|vars| | |i]; simpl.
  - destruct (createBuildHandler_effect decoded w) as [Hsame|Hnew];
      simpl in *.
    + rewrite Hsame, started_nothing by reflexivity.
      rewrite app_nil_r. auto.
    + destruct Hnew as (req & built & _ & _ & _ & _ & _ & _ & _ & Hres).
      destruct (snd (fst (CreateBuild built (db w)))) as [e|].
      * destruct Hres as (Hm & Hg). rewrite Hm, (started_nothing _ _ Hg).
        rewrite app_nil_r. auto.
      * destruct Hres as (Hm & Hg). rewrite Hm, (started_one _ _ _ Hg).
        rewrite length_app. simpl. split; [lia|].
        split; [apply BuildsTotal_Inc_grows | reflexivity].
  - destruct (getBuildHandler_frame vars w) as (Hm & _). simpl in Hm.
    rewrite Hm. auto.
  - destruct (listBuildsHandler_frame w) as (Hm & _). simpl in Hm.
    rewrite Hm. auto.
  - destruct (healthHandler_run NewRecorder w eq_refl)
      as (_ & _ & Hm & _).
    simpl in Hm. rewrite Hm. simpl. auto.
  - destruct (waiting !! i) as [build|] eqn:Hi; simpl; [|auto].
    pose proof (processBuild_metrics build w) as (_ & Ha & _).
    pose proof (processBuild_grows build w l) as (Hc & Hd).
    simpl in *. rewrite Ha, length_delete by eauto.
    apply lookup_lt_Some in Hi.
    split; [lia | auto].
Qed.

(** X18. Along every schedule the active-builds gauge moves with the number
    of tasks started and not yet run: from a state with no waiting task, it
    is its first value plus the number of tasks waiting, and so back at its
    first value whenever none is waiting. *)
Theorem schedule_gauge_counts_waiting (evs : list Event) w :
  let s' := schedule evs (w, []) in
  ActiveBuilds (metrics (fst s')) =
    ActiveBuilds (metrics w) + Z.of_nat (length (snd s')).
Proof.
  simpl. unfold schedule.
  cut (forall s : World DB * list BuildRequest,
         ActiveBuilds (metrics (fst (foldl (fun s ev => dispatch ev s) s evs)))
         - Z.of_nat (length (snd (foldl (fun s ev => dispatch ev s) s evs)))
         = ActiveBuilds (metrics (fst s)) - Z.of_nat (length (snd s))).
  { intros Hall. specialize (Hall (w, [])). simpl in Hall. lia. }
  induction evs as [|ev evs IH]; intros [w0 waiting]; simpl; [reflexivity|].
  rewrite IH.
  exact (proj1 (dispatch_metrics ev w0 waiting "")).
Qed.

(** X19. Along every schedule no counter of [BuildsTotal] ever goes down
    and the observations of [BuildDuration] are only added to. *)
Theorem schedule_metrics_only_grow (evs : list Event) w waiting (l : string) :
  let s' := schedule evs (w, waiting) in
  (default 0 (BuildsTotal (metrics w) !! l)
   <= default 0 (BuildsTotal (metrics (fst s')) !! l))%nat
  /\ BuildDuration (metrics w) `prefix_of` BuildDuration (metrics (fst s')).
Proof.
  simpl. unfold schedule. revert w waiting.
  induction evs as [|ev evs IH]; intros w waiting; cbn [foldl].
  - split; [simpl; lia | reflexivity].
  - pose proof (dispatch_metrics ev w waiting l) as (_ & Hc & Hd).
    destruct (dispatch ev (w, waiting)) as [w1 waiting1] eqn:Hstep.
    simpl in Hc, Hd. destruct (IH w1 waiting1) as (Hc' & Hd').
    split; [eapply Nat.le_trans | etransitivity]; eassumption.
Qed.

End ScheduleFacts.

(** ** The service on the PostgreSQL store, along every schedule *)

Lemma processBuild_rows (build : BuildRequest)
    (w : World PostgreSQLDatabase) :
  let w' := snd (processBuild build w) in
  builds_id_seq (db w') = builds_id_seq (db w)
  /\ exists f, builds (db w') = f <$> builds (db w) /\ task_writes build f.
Proof.
  run_task. unfold pgUpdateBuildStatus.
  destruct (refuse (reply (db w))) as [e|]; simpl.
  { split; [reflexivity|]. exists id. split; [now rewrite list_fmap_id|].
    intros r. simpl. auto 10. }
  assert (forall now1 now2 s,
            s = "success" \/ s = "failed" ->
            task_writes build
              (sql_update_status now2 s (ID build)
               ∘ sql_update_status now1 "running" (ID build))) as Htwo.
  { intros now1 now2 s Hs r. unfold compose, sql_update_status.
    destruct (Z.eqb_spec (ID r) (ID build)) as [Heq|Hne]; simpl.
    - rewrite Heq, Z.eqb_refl. simpl.
      split; [congruence|]. destruct Hs as [-> | ->]; auto 10.
    - destruct (Z.eqb_spec (ID r) (ID build)); [contradiction|].
      repeat split; auto. }
  assert (forall now1,
            task_writes build
              (sql_update_status now1 "running" (ID build))) as Hone.
  { intros now1 r. unfold sql_update_status.
    destruct (Z.eqb_spec (ID r) (ID build)) as [Heq|Hne]; simpl.
    - split; [congruence|]. repeat split; auto.
    - repeat split; auto. }
  destruct (len (ProjectName build) mod 10 =? 0); simpl;
    unfold reply at 1; simpl;
    destruct (refuse (server (db w) (S (statements (db w))))) as [e|];
    simpl; (split; [reflexivity|]);
    try (eexists; split; [reflexivity | apply Hone]);
    rewrite <- list_fmap_compose;
    eexists; (split; [reflexivity | apply Htwo; auto]).
Qed.

(** One event on the PostgreSQL store: nothing happens to the rows, or a
    "queued" row with a name and a URL is added under the next identifier
    and its task starts to wait, or a waiting task makes its writes. *)
Lemma dispatch_rows (ev : Event) (w : World PostgreSQLDatabase)
    (waiting : list BuildRequest) :
  let s' := dispatch ev (w, waiting) in
  let rows := builds (db w) in
  let seq := builds_id_seq (db w) in
  (builds (db (fst s')) = rows /\ builds_id_seq (db (fst s')) = seq
   /\ snd s' = waiting)
  \/ (exists row,
        ProjectName row <> "" /\ GitURL row <> "" /\ Status row = "queued"
        /\ ID row = seq
        /\ builds (db (fst s')) = rows ++ [row]
        /\ builds_id_seq (db (fst s')) = seq + 1
        /\ snd s' = waiting ++ [row])
  \/ (exists i build f,
        waiting !! i = Some build
        /\ snd s' = delete i waiting
        /\ builds_id_seq (db (fst s')) = seq
        /\ builds (db (fst s')) = f <$> rows
        /\ task_writes build f).
Proof.
  destruct ev as [decoded|vars| | |i]; simpl.
  - destruct (createBuildHandler_effect decoded w) as [Hsame|Hnew];
      simpl in *.
    { left. rewrite Hsame, started_nothing by reflexivity.
      rewrite app_nil_r. auto. }
    destruct Hnew as (req & built & _ & Hp & Hp' & Hg & Hg' & Hs & Hdb & Hres).
    simpl in Hdb, Hres. unfold pgCreateBuild in Hdb, Hres.
    destruct (refuse (reply (db w))) as [e|]; simpl in Hdb, Hres.
    + destruct Hres as (_ & Hgo). left.
      rewrite Hdb, (started_nothing _ _ Hgo), app_nil_r. auto.
    + destruct Hres as (_ & Hgo). right. left.
      exists (set_ID (builds_id_seq (db w)) built).
      rewrite Hdb, (started_one _ _ _ Hgo). simpl.
      rewrite Hp, Hg. unfold sql_insert. auto 10.
  - left. destruct (getBuildHandler_frame vars w) as (_ & _ & [Hdb|[id Hdb]]);
      simpl in Hdb; rewrite Hdb; [auto|].
    destruct (pgGetBuild_store id (db w)); auto.
  - left. destruct (listBuildsHandler_frame w) as (_ & _ & Hdb).
    simpl in Hdb. rewrite Hdb.
    destruct (pgListBuilds_store (db w)); auto.
  - left. destruct (healthHandler_run NewRecorder w eq_refl)
      as (_ & _ & _ & Hdb & _).
    simpl in Hdb. rewrite Hdb. auto.
  - destruct (waiting !! i) as [build|] eqn:Hi; simpl; [|auto].
    right. right.
    destruct (processBuild_rows build w) as (Hseq & f & Hrows & Hf).
    exists i, build, f. auto.
Qed.

Lemma ids_snoc (l : list BuildRequest) (x : BuildRequest) (seq : Z) :
  NoDup (ID <$> l) -> Forall (fun r => ID r < seq) l -> ID x = seq ->
  NoDup (ID <$> (l ++ [x])) /\ Forall (fun r => ID r < seq + 1) (l ++ [x]).
Proof.
  intros Hnodup Hlt Hx. split.
  - rewrite fmap_app. apply NoDup_app. split; [exact Hnodup|].
    split; [|apply NoDup_singleton].
    intros i Hi Hi'. apply list_elem_of_singleton in Hi'.
    apply list_elem_of_fmap in Hi as (r & -> & Hr).
    rewrite Forall_forall in Hlt. specialize (Hlt r Hr). lia.
  - apply Forall_app. split.
    + eapply Forall_impl; [exact Hlt|]. simpl. intros; lia.
    + apply Forall_singleton. lia.
Qed.

Lemma NoDup_delete_other (l : list BuildRequest) (i : nat)
    (b b' : BuildRequest) :
  NoDup (ID <$> l) -> l !! i = Some b -> b' ∈ delete i l -> ID b' <> ID b.
Proof.
  intros Hnodup Hi Hin Heq.
  rewrite <- (take_drop_middle l i b Hi) in Hnodup.
  rewrite fmap_app, fmap_cons in Hnodup.
  apply NoDup_app in Hnodup as (_ & Hapart & Hrest).
  apply NoDup_cons in Hrest as (Hnotin & _).
  rewrite delete_take_drop in Hin. apply elem_of_app in Hin as [Hin|Hin].
  - apply (Hapart (ID b')).
    + apply list_elem_of_fmap. eauto.
    + rewrite Heq. left.
  - apply Hnotin. rewrite <- Heq. apply list_elem_of_fmap. eauto.
Qed.

(** One event keeps the state consistent. *)
Lemma dispatch_consistent (ev : Event)
    (s : World PostgreSQLDatabase * list BuildRequest) :
  consistent s -> consistent (dispatch ev s).
Proof.
  destruct s as [w waiting].
  intros ((Hnodup & Hlt) & Hwait & Hwlt & Hqueued). cbn [fst snd] in *.
  pose proof (dispatch_rows ev w waiting) as Hshape. cbv zeta in Hshape.
  set (s' := dispatch ev (w, waiting)) in *. clearbody s'.
  destruct s' as [w' waiting']. cbn [fst snd] in *.
  destruct Hshape
    as [(Hrows & Hseq & Hw)
       |[(row & Hp & Hg & Hs & Hid & Hrows & Hseq & Hw)
        |(i & build & f & Hi & Hw & Hseq & Hrows & Hf)]];
    unfold consistent, fresh_ids; cbn [fst snd]; rewrite Hrows, Hseq, Hw.
  - auto.
  - destruct (ids_snoc _ row _ Hnodup Hlt Hid) as (Hnodup' & Hlt').
    destruct (ids_snoc _ row _ Hwait Hwlt Hid) as (Hwait' & Hwlt').
    split; [auto|]. split; [exact Hwait'|]. split; [exact Hwlt'|].
    intros b r Hb Hr Hsame.
    rewrite Forall_forall in Hlt, Hwlt.
    apply elem_of_app in Hb as [Hb|Hb], Hr as [Hr|Hr];
      try apply list_elem_of_singleton in Hb;
      try apply list_elem_of_singleton in Hr; subst.
    + eauto.
    + specialize (Hwlt b Hb). lia.
    + specialize (Hlt r Hr). lia.
    + exact Hs.
  - assert (ID <$> (f <$> builds (db w)) = ID <$> builds (db w)) as Hids.
    { rewrite <- list_fmap_compose. apply list_fmap_ext. intros j r _.
      simpl. apply Hf. }
    split; [split|].
    + rewrite Hids. exact Hnodup.
    + apply Forall_fmap. eapply Forall_impl; [exact Hlt|]. simpl.
      intros r Hr. destruct (Hf r) as (_ & -> & _). exact Hr.
    + split; [|split].
      * eapply sublist_NoDup; [exact Hwait|].
        apply fmap_sublist, sublist_delete.
      * apply Forall_delete. exact Hwlt.
      * intros b r' Hb Hr' Hsame.
        apply list_elem_of_fmap in Hr' as (r & -> & Hr).
        pose proof (NoDup_delete_other _ _ _ _ Hwait Hi Hb) as Hne.
        destruct (Hf r) as (Hother & Hfid & _).
        rewrite Hfid in Hsame. rewrite Hother by congruence.
        apply (Hqueued b r); auto.
        eapply elem_of_sublist; [exact Hb | apply sublist_delete].
Qed.

(** X20. On the PostgreSQL store, along every schedule: the identifiers of
    the rows stay pairwise different and below the sequence, the waiting
    tasks belong to different builds, and the row of every waiting task is
    still "queued" when the task comes to run. *)
Theorem schedule_keeps_consistent (evs : list Event)
    (s : World PostgreSQLDatabase * list BuildRequest) :
  consistent s -> consistent (schedule evs s).
Proof.
  unfold schedule. revert s.
  induction evs as [|ev evs IH]; intros s Hs; cbn [foldl]; [exact Hs|].
  apply IH. apply dispatch_consistent. exact Hs.
Qed.

(** X22. On the PostgreSQL store, along every schedule, every row keeps a
    project name and a git URL that are not empty, when the rows there at
    the start have them. *)
Theorem schedule_keeps_rows_named (evs : list Event)
    (s : World PostgreSQLDatabase * list BuildRequest) :
  named_rows (db (fst s)) -> named_rows (db (fst (schedule evs s))).
Proof.
  unfold schedule. revert s.
  induction evs as [|ev evs IH]; intros s Hs; cbn [foldl]; [exact Hs|].
  apply IH. destruct s as [w waiting]. unfold named_rows in *.
  cbn [fst snd] in Hs.
  pose proof (dispatch_rows ev w waiting) as Hshape. cbv zeta in Hshape.
  set (s' := dispatch ev (w, waiting)) in *. clearbody s'.
  destruct Hshape
    as [(Hrows & _)
       |[(row & Hp & Hg & _ & _ & Hrows & _)
        |(i & build & f & _ & _ & _ & Hrows & Hf)]];
    rewrite Hrows.
  - exact Hs.
  - apply Forall_app. split; [exact Hs|]. apply Forall_singleton. auto.
  - apply Forall_fmap. eapply Forall_impl; [exact Hs|]. simpl.
    intros r [Hp Hg]. destruct (Hf r) as (_ & _ & -> & -> & _). auto.
Qed.

Lemma sql_select_by_id_last (rows : list BuildRequest) (row : BuildRequest)
    (id : Z) :
  id ∉ ID <$> rows -> ID row = id ->
  sql_select_by_id (rows ++ [row]) id = Some row.
Proof.
  unfold sql_select_by_id. intros Hnot Hrow.
  induction rows as [|r rows IH]; csimpl.
  - now rewrite Hrow, Z.eqb_refl.
  - csimpl in Hnot. apply not_elem_of_cons in Hnot as [Hne Hnot].
    destruct (Z.eqb_spec (ID r) id); [congruence | apply IH; exact Hnot].
Qed.

(** X23. Submit, run, fetch: on a store with fresh identifiers whose server
    accepts the four statements, a valid submission followed by the run of
    its task leaves no task waiting, the gauge at its first value and one
    more row in the table: the build under the next identifier, with the
    branch defaulted, the creation time read at the submission, the
    terminal status decided by the length of the name and the server's time
    of the last update; fetching that identifier then answers 200 with
    this row. *)
Theorem submit_run_fetch (req : BuildRequest) (w : World PostgreSQLDatabase)
    (idStr : string) :
  fresh_ids (db w) ->
  ProjectName req <> "" -> GitURL req <> "" ->
  let n := statements (db w) in
  refuse (server (db w) n) = None ->
  refuse (server (db w) (S n)) = None ->
  refuse (server (db w) (S (S n))) = None ->
  refuse (server (db w) (S (S (S n)))) = None ->
  Atoi idStr = Some (builds_id_seq (db w)) ->
  let s := schedule [Submit (Some req); Finish 0] (w, []) in
  let row :=
    mkBuildRequest (builds_id_seq (db w)) (ProjectName req) (GitURL req)
      (if String.eqb (Branch req) "" then "main" else Branch req)
      (if len (ProjectName req) mod 10 =? 0 then "failed" else "success")
      (clock w (reads w)) (NOW (server (db w) (S (S n)))) in
  snd s = []
  /\ builds (db (fst s)) = builds (db w) ++ [row]
  /\ ActiveBuilds (metrics (fst s)) = ActiveBuilds (metrics w)
  /\ fst (getBuildHandler {["id" := idStr]} (fst s))
     = mkResponse StatusOK "application/json" (JsonBuild row).
Proof.
  intros Hfresh Hp Hg n H0 H1 H2 H3 Hid.
  pose proof (fresh_ids_not_seq _ Hfresh) as Hnot.
  apply String.eqb_neq in Hp. apply String.eqb_neq in Hg.
  unfold schedule. cbn [foldl dispatch]. unfold createBuildHandler, started.
  rewrite Hp, Hg. cbn [orb]. run. unfold pgCreateBuild, reply. fold n.
  rewrite H0. simpl. rewrite drop_app_length. simpl.
  run_task. unfold pgUpdateBuildStatus, reply. simpl. fold n.
  rewrite H1. simpl.
  assert (forall now status (row : BuildRequest),
            ID row = builds_id_seq (db w) ->
            sql_update_status now status (builds_id_seq (db w))
              <$> (builds (db w) ++ [row])
            = builds (db w)
              ++ [set_UpdatedAt now (set_Status status row)]) as Hupd.
  { intros now status row Hrow. rewrite fmap_app.
    rewrite sql_update_status_other by exact Hnot. simpl.
    unfold sql_update_status. rewrite Hrow, Z.eqb_refl. reflexivity. }
  unfold sql_insert.
  destruct (String.eqb (Branch req) "") eqn:Hb; simpl;
    destruct (len (ProjectName req) mod 10 =? 0) eqn:Hlen; simpl;
    fold n; rewrite H2; simpl;
    rewrite !Hupd by reflexivity;
    (split; [reflexivity|]); (split; [reflexivity|]);
    (split; [simpl; lia|]);
    unfold getBuildHandler; rewrite lookup_singleton_eq, Hid; run;
    unfold pgGetBuild, reply; simpl; fold n; rewrite H3;
    rewrite sql_select_by_id_last by (auto; reflexivity); reflexivity.
Qed.

Lemma submit_run_fetch_witness :
  fst (getBuildHandler {["id" := "1"]}
         (fst (schedule [Submit (Some Sample.demo); Finish 0]
                 (Sample.world [] Sample.accepting, []))))
  = mkResponse StatusOK "application/json"
      (JsonBuild (mkBuildRequest 1 "demo" "https://x/y.git" "main"
                    "success" 0 1000)).
Proof.
  refine (proj2 (proj2 (proj2
            (submit_run_fetch Sample.demo (Sample.world [] Sample.accepting)
               "1" _ _ _ eq_refl eq_refl eq_refl eq_refl eq_refl)))).
  - split; [apply NoDup_nil; exact I | apply Forall_nil; exact I].
  - discriminate.
  - discriminate.
Defined.

Lemma consistent_sample :
  consistent (restarted Sample.queued_demo, []).
Proof.
  split; [|split; [|split]]; simpl.
  - split; simpl; [apply NoDup_singleton|].
    apply Forall_singleton. simpl. lia.
  - apply NoDup_nil. exact I.
  - apply Forall_nil. exact I.
  - intros b r Hb. apply elem_of_nil in Hb. contradiction.
Qed.

Lemma schedule_keeps_consistent_witness :
  consistent (schedule [Submit (Some Sample.demo); Finish 0]
                (restarted Sample.queued_demo, [])).
Proof.
  exact (schedule_keeps_consistent [Submit (Some Sample.demo); Finish 0]
           _ consistent_sample).
Defined.

Lemma schedule_keeps_rows_named_witness :
  named_rows (db (fst (schedule [Submit (Some Sample.demo); Finish 0]
                         (restarted Sample.queued_demo, [])))).
Proof.
  apply (schedule_keeps_rows_named [Submit (Some Sample.demo); Finish 0]
           (restarted Sample.queued_demo, [])).
  apply Forall_singleton. simpl. split; discriminate.
Defined.

(** ** The task in two steps, with requests served while it sleeps *)

(** The two steps, one right after the other, are [processBuild]. *)
Lemma processBuild_two_steps {DB : Type} `{DatabaseInterface DB}
    (build : BuildRequest) (w : World DB) :
  processBuild build w =
  match processBuild_to_sleep build w with
  | (None, w1) =>
      (set_UpdatedAt (clock w (S (reads w))) (set_Status "running" build),
       w1)
  | (Some (start, b), w1) => processBuild_from_sleep start b w1
  end.
Proof.
  unfold processBuild_to_sleep, processBuild_from_sleep. run_task.
  destruct (UpdateBuildStatus (ID build) "running" (db w)) as [[e|] d];
    simpl; [reflexivity|].
  destruct (len (ProjectName build) mod 10 =? 0); simpl;
    match goal with
    | |- context [UpdateBuildStatus ?i ?s d] =>
        destruct (UpdateBuildStatus i s d) as [[e2|] d2]
    end; reflexivity.
Qed.

Lemma keys_snoc {A : Type} (k : A -> Z) (l : list A) (x : A) (seq : Z) :
  NoDup (k <$> l) -> Forall (fun a => k a < seq) l -> k x = seq ->
  NoDup (k <$> (l ++ [x])) /\ Forall (fun a => k a < seq + 1) (l ++ [x]).
Proof.
  intros Hnodup Hlt Hx. split.
  - rewrite fmap_app. apply NoDup_app. split; [exact Hnodup|].
    split; [|apply NoDup_singleton].
    intros i Hi Hi'. apply list_elem_of_singleton in Hi'.
    apply list_elem_of_fmap in Hi as (a & -> & Ha).
    rewrite Forall_forall in Hlt. specialize (Hlt a Ha). simpl in Hi'. lia.
  - apply Forall_app. split.
    + eapply Forall_impl; [exact Hlt|]. simpl. intros; lia.
    + apply Forall_singleton. lia.
Qed.

Lemma keys_apart {A : Type} (k : A -> Z) (l : list A) (i j : nat) (a b : A) :
  NoDup (k <$> l) -> l !! i = Some a -> l !! j = Some b -> i <> j ->
  k a <> k b.
Proof.
  intros Hnodup Hi Hj Hne Heq. apply Hne.
  apply (NoDup_lookup (k <$> l) i j (k a) Hnodup).
  - rewrite list_lookup_fmap, Hi. reflexivity.
  - rewrite list_lookup_fmap, Hj. simpl. now rewrite Heq.
Qed.

Lemma elem_of_delete_other {A : Type} (l : list A) (i : nat) (a : A) :
  a ∈ delete i l -> exists j, j <> i /\ l !! j = Some a.
Proof.
  intros Hin. apply list_elem_of_lookup in Hin as (j & Hj).
  destruct (decide (j < i)%nat) as [Hlt|Hge].
  - rewrite list_lookup_delete_lt in Hj by exact Hlt.
    exists j. split; [lia | exact Hj].
  - rewrite list_lookup_delete_ge in Hj by lia.
    exists (S j). split; [lia | exact Hj].
Qed.

Lemma elem_of_insert_other {A : Type} (l : list A) (i : nat) (x a : A) :
  a ∈ <[i := x]> l -> a = x \/ exists j, j <> i /\ l !! j = Some a.
Proof.
  intros Hin. apply list_elem_of_lookup in Hin as (j & Hj).
  apply list_lookup_insert_Some in Hj as [(_ & -> & _)|(Hne & Hj)];
    [left; reflexivity | right; exists j; auto].
Qed.

Lemma advances_refl r : advances r r.
Proof. unfold advances. auto 10. Qed.

Lemma advances_trans r1 r2 r3 :
  advances r1 r2 -> advances r2 r3 -> advances r1 r3.
Proof.
  unfold advances.
  intros (Hi & Hp & Hg & Hb & Hc & Hkeep & Hmove)
         (Hi' & Hp' & Hg' & Hb' & Hc' & Hkeep' & Hmove').
  repeat split; try congruence.
  - intros Hnq Hnr. specialize (Hkeep Hnq Hnr). subst r2. auto.
  - destruct Hmove as [-> | [(Hq & Hs2) | (Hr & Hs2)]]; [exact Hmove'| |].
    + right. left. split; [exact Hq|].
      destruct Hmove' as [-> | [(Hq' & _) | (_ & Hs3)]]; [exact Hs2| |].
      * destruct Hs2 as [Hs2|[Hs2|Hs2]]; rewrite Hs2 in Hq'; discriminate.
      * destruct Hs3; auto.
    + right. right. split; [exact Hr|].
      destruct Hmove' as [-> | [(Hq' & _) | (Hr' & _)]]; [exact Hs2| |].
      * destruct Hs2 as [Hs2|Hs2]; rewrite Hs2 in Hq'; discriminate.
      * destruct Hs2 as [Hs2|Hs2]; rewrite Hs2 in Hr'; discriminate.
Qed.

(** The row at each place after an update of the status of one build. *)
Lemma sql_update_status_advances now status id (r : BuildRequest) :
  (Status r = "queued"
   /\ (status = "running" \/ status = "success" \/ status = "failed")
   \/ Status r = "running" /\ (status = "success" \/ status = "failed")
   \/ ID r <> id) ->
  advances r (sql_update_status now status id r).
Proof.
  intros Hcase. unfold sql_update_status.
  destruct (Z.eqb_spec (ID r) id) as [Heq|Hne]; [|apply advances_refl].
  unfold advances. simpl. repeat split.
  - intros Hnq Hnr. destruct Hcase as [(Hq & _)|[(Hr & _)|Hne]];
      contradiction.
  - destruct Hcase as [(Hq & Hs)|[(Hr & Hs)|Hne]]; [auto | auto |].
    contradiction.
Qed.

Lemma processBuild_to_sleep_rows (build : BuildRequest)
    (w : World PostgreSQLDatabase) :
  let out := processBuild_to_sleep build w in
  builds_id_seq (db (snd out)) = builds_id_seq (db w)
  /\ match refuse (reply (db w)) with
     | Some _ => fst out = None /\ builds (db (snd out)) = builds (db w)
     | None =>
         exists start build',
           fst out = Some (start, build') /\ ID build' = ID build
           /\ builds (db (snd out)) =
                sql_update_status (NOW (reply (db w))) "running" (ID build)
                  <$> builds (db w)
     end.
Proof.
  unfold processBuild_to_sleep, processBuild_deferred. run.
  unfold pgUpdateBuildStatus.
  destruct (refuse (reply (db w))) as [e|]; simpl; [auto|].
  split; [reflexivity|]. eexists _, _. split; [reflexivity|]. auto.
Qed.

Lemma processBuild_from_sleep_rows (start : Time) (build : BuildRequest)
    (w : World PostgreSQLDatabase) :
  let w' := snd (processBuild_from_sleep start build w) in
  builds_id_seq (db w') = builds_id_seq (db w)
  /\ (builds (db w') = builds (db w)
      \/ exists now status,
           (status = "success" \/ status = "failed")
           /\ builds (db w') =
                sql_update_status now status (ID build) <$> builds (db w)).
Proof.
  unfold processBuild_from_sleep, processBuild_deferred. run.
  destruct (len (ProjectName build) mod 10 =? 0); simpl;
    unfold pgUpdateBuildStatus;
    destruct (refuse (reply (db w))) as [e|]; simpl;
    (split; [reflexivity|]); auto; right; eexists _, _;
    (split; [|reflexivity]); auto.
Qed.

(** One turn on the PostgreSQL store: nothing happens to the rows and the
    tasks; or a "queued" row is added under the next identifier and its
    task is started; or a task ends without a write; or a task not yet run
    writes "running" and falls asleep; or a task asleep writes its terminal
    status and ends. *)
Lemma turn_rows (t : Turn) (w : World PostgreSQLDatabase)
    (tasks : list Task) :
  let s' := turn t (w, tasks) in
  let rows := builds (db w) in
  let seq := builds_id_seq (db w) in
  builds_id_seq (db (fst s')) = (if decide (length (builds (db (fst s')))
                                           = length rows) then seq
                                 else seq + 1)
  /\ ((builds (db (fst s')) = rows /\ snd s' = tasks)
      \/ (exists row,
            Status row = "queued" /\ ID row = seq
            /\ builds (db (fst s')) = rows ++ [row]
            /\ snd s' = tasks ++ [Started row])
      \/ (exists i task,
            tasks !! i = Some task
            /\ builds (db (fst s')) = rows /\ snd s' = delete i tasks)
      \/ (exists i build start build' now,
            tasks !! i = Some (Started build)
            /\ ID build' = ID build
            /\ builds (db (fst s')) =
                 sql_update_status now "running" (ID build) <$> rows
            /\ snd s' = <[i := Asleep start build']> tasks)
      \/ (exists i start build now status,
            tasks !! i = Some (Asleep start build)
            /\ (status = "success" \/ status = "failed")
            /\ builds (db (fst s')) =
                 sql_update_status now status (ID build) <$> rows
            /\ snd s' = delete i tasks)).
Proof.
  assert (forall (rows' : list BuildRequest) seq,
            length rows' = length (builds (db w)) ->
            seq = builds_id_seq (db w) ->
            seq = if decide (length rows' = length (builds (db w)))
                  then builds_id_seq (db w)
                  else builds_id_seq (db w) + 1) as Hsame.
  { intros rows' seq Hlen ->. rewrite decide_True by exact Hlen.
    reflexivity. }
  destruct t as [decoded|vars| | |i]; cbn [turn].
  - destruct (createBuildHandler_effect decoded w) as [Hsame'|Hnew];
      cbv zeta in *.
    { rewrite Hsame', started_nothing by reflexivity. cbn [fst snd].
      rewrite app_nil_r. split; [apply Hsame; reflexivity|]. auto. }
    destruct Hnew as (req & built & _ & Hp & Hp' & Hg & Hg' & Hs & Hdb & Hres).
    simpl in Hdb, Hres. unfold pgCreateBuild in Hdb, Hres.
    destruct (refuse (reply (db w))) as [e|]; simpl in Hdb, Hres.
    + destruct Hres as (_ & Hgo). cbn [fst snd].
      rewrite Hdb, (started_nothing _ _ Hgo). simpl. rewrite app_nil_r.
      split; [apply Hsame; reflexivity|]. auto.
    + destruct Hres as (_ & Hgo). cbn [fst snd].
      rewrite Hdb, (started_one _ _ _ Hgo). simpl. split.
      * rewrite decide_False; [reflexivity|].
        unfold sql_insert. rewrite length_app. simpl. lia.
      * right. left. exists (set_ID (builds_id_seq (db w)) built).
        unfold sql_insert. auto.
  - cbn [fst snd].
    destruct (getBuildHandler_frame vars w) as (_ & _ & [Hdb|[id Hdb]]);
      simpl in Hdb; rewrite Hdb.
    + split; [apply Hsame; reflexivity|]. auto.
    + destruct (pgGetBuild_store id (db w)) as (Hr & Hq). rewrite Hr, Hq.
      split; [apply Hsame; reflexivity|]. auto.
  - cbn [fst snd]. destruct (listBuildsHandler_frame w) as (_ & _ & Hdb).
    simpl in Hdb. rewrite Hdb.
    destruct (pgListBuilds_store (db w)) as (Hr & Hq). rewrite Hr, Hq.
    split; [apply Hsame; reflexivity|]. auto.
  - cbn [fst snd].
    destruct (healthHandler_run NewServerResponse w eq_refl)
      as (_ & _ & _ & Hdb & _).
    simpl in Hdb. rewrite Hdb. simpl.
    split; [apply Hsame; reflexivity|]. auto.
  - destruct (tasks !! i) as [[build|start build]|] eqn:Hi.
    + pose proof (processBuild_to_sleep_rows build w) as (Hseq & Hrows).
      cbv zeta in *.
      destruct (processBuild_to_sleep build w) as [out w'].
      cbn [fst snd] in *.
      destruct (refuse (reply (db w))) as [e|].
      * destruct Hrows as (-> & Hrows). cbn [fst snd]. rewrite Hrows, Hseq.
        split; [apply Hsame; reflexivity|]. right. right. left. eauto.
      * destruct Hrows as (start & build' & -> & Hid & Hrows).
        cbn [fst snd]. rewrite Hrows, Hseq.
        split; [apply Hsame; [apply length_fmap | reflexivity]|].
        right. right. right. left. eauto 10.
    + pose proof (processBuild_from_sleep_rows start build w)
        as (Hseq & Hrows).
      cbv zeta in *. cbn [fst snd]. rewrite Hseq.
      destruct Hrows as [Hrows|(now & status & Hst & Hrows)];
        rewrite Hrows.
      * split; [apply Hsame; reflexivity|]. right. right. left. eauto.
      * split; [apply Hsame; [apply length_fmap | reflexivity]|].
        right. right. right. right. eauto 10.
    + cbn [fst snd]. split; [apply Hsame; reflexivity|]. auto.
Qed.

Lemma fresh_rows_updated now status id (rows : list BuildRequest) (seq : Z) :
  NoDup (ID <$> rows) -> Forall (fun r => ID r < seq) rows ->
  NoDup (ID <$> (sql_update_status now status id <$> rows))
  /\ Forall (fun r => ID r < seq) (sql_update_status now status id <$> rows).
Proof.
  intros Hnodup Hlt. rewrite sql_update_status_IDs. split; [exact Hnodup|].
  apply Forall_fmap. eapply Forall_impl; [exact Hlt|]. simpl.
  intros r Hr. now rewrite sql_update_status_ID.
Qed.

Lemma sql_update_status_hit now status id (r : BuildRequest) :
  ID r = id -> Status (sql_update_status now status id r) = status.
Proof.
  intros Heq. unfold sql_update_status.
  destruct (Z.eqb_spec (ID r) id); [reflexivity | contradiction].
Qed.

Lemma sql_update_status_miss now status id (r : BuildRequest) :
  ID r <> id -> sql_update_status now status id r = r.
Proof.
  intros Hne. unfold sql_update_status.
  destruct (Z.eqb_spec (ID r) id); [contradiction | reflexivity].
Qed.

(** One turn keeps the state coherent and only moves rows on. *)
Lemma turn_step (t : Turn) (s : World PostgreSQLDatabase * list Task) :
  coherent s ->
  coherent (turn t s)
  /\ forall j r,
       builds (db (fst s)) !! j = Some r ->
       exists r', builds (db (fst (turn t s))) !! j = Some r'
                  /\ advances r r'.
Proof.
  destruct s as [w tasks].
  intros ((Hnodup & Hlt) & Htasks & Htlt & Hstatus). cbn [fst snd] in *.
  pose proof (turn_rows t w tasks) as (Hseq & Hshape). cbv zeta in *.
  set (s' := turn t (w, tasks)) in *. clearbody s'.
  destruct s' as [w' tasks']. cbn [fst snd] in *.
  unfold coherent, fresh_ids. cbn [fst snd].
  destruct Hshape
    as [(Hrows & Hw)
       |[(row & Hs & Hid & Hrows & Hw)
        |[(i & task & Hi & Hrows & Hw)
         |[(i & build & start & build' & now & Hi & Hid & Hrows & Hw)
          |(i & start & build & now & status & Hi & Hst & Hrows & Hw)]]]];
    rewrite Hrows in Hseq |- *; rewrite Hw; clear Hrows Hw.
  - rewrite decide_True in Hseq by reflexivity. rewrite Hseq.
    split; [auto|]. intros j r Hr. exists r. split; [exact Hr|].
    apply advances_refl.
  - rewrite decide_False in Hseq by (rewrite length_app; simpl; lia).
    rewrite Hseq.
    destruct (keys_snoc ID _ row _ Hnodup Hlt Hid) as (Hnodup' & Hlt').
    destruct (keys_snoc (fun t => ID (task_build t)) _ (Started row) _
                Htasks Htlt Hid) as (Htasks' & Htlt').
    split.
    + split; [auto|]. split; [exact Htasks'|]. split; [exact Htlt'|].
      intros t0 r Ht Hr Hsame.
      rewrite Forall_forall in Hlt. rewrite Forall_forall in Htlt.
      apply elem_of_app in Ht as [Ht|Ht], Hr as [Hr|Hr];
        try apply list_elem_of_singleton in Ht;
        try apply list_elem_of_singleton in Hr; subst.
      * eauto.
      * specialize (Htlt t0 Ht). simpl in Htlt. lia.
      * specialize (Hlt r Hr). simpl in *. lia.
      * exact Hs.
    + intros j r Hr. exists r. split; [|apply advances_refl].
      rewrite lookup_app_l; [exact Hr|]. eapply lookup_lt_Some; exact Hr.
  - rewrite decide_True in Hseq by reflexivity. rewrite Hseq.
    split.
    + split; [auto|]. split; [|split].
      * eapply sublist_NoDup; [exact Htasks|].
        apply fmap_sublist, sublist_delete.
      * apply Forall_delete. exact Htlt.
      * intros t0 r Ht Hr. apply Hstatus; [|exact Hr].
        eapply list_elem_of_delete_inv; exact Ht.
    + intros j r Hr. exists r. split; [exact Hr | apply advances_refl].
  - rewrite decide_True in Hseq by apply length_fmap. rewrite Hseq.
    destruct (fresh_rows_updated now "running" (ID build) _ _ Hnodup Hlt)
      as (Hnodup' & Hlt').
    assert (Started build ∈ tasks) as Hin
      by (eapply list_elem_of_lookup_2; exact Hi).
    split.
    + split; [auto|]. split; [|split].
      * rewrite list_fmap_insert. simpl. rewrite Hid.
        rewrite list_insert_id; [exact Htasks|].
        rewrite list_lookup_fmap, Hi. reflexivity.
      * apply Forall_insert; [exact Htlt|]. simpl. rewrite Hid.
        rewrite Forall_forall in Htlt. apply (Htlt _ Hin).
      * intros t0 r' Ht Hr' Hsame.
        apply list_elem_of_fmap in Hr' as (r & -> & Hr).
        rewrite sql_update_status_ID in Hsame.
        apply elem_of_insert_other in Ht as [->|(j & Hne & Hj)].
        -- simpl in *. apply sql_update_status_hit. congruence.
        -- pose proof (keys_apart (fun t => ID (task_build t)) _ _ _ _ _
                         Htasks Hj Hi Hne) as Hkeys. simpl in Hkeys.
           rewrite sql_update_status_miss by congruence.
           apply Hstatus; [|exact Hr|exact Hsame].
           eapply list_elem_of_lookup_2; exact Hj.
    + intros j r Hr. eexists. rewrite list_lookup_fmap, Hr.
      split; [reflexivity|]. apply sql_update_status_advances.
      destruct (Z.eq_dec (ID r) (ID build)) as [Heq|Hne]; [|auto].
      left. split; [|auto].
      apply (Hstatus (Started build) r); auto.
      eapply list_elem_of_lookup_2; exact Hr.
  - rewrite decide_True in Hseq by apply length_fmap. rewrite Hseq.
    destruct (fresh_rows_updated now status (ID build) _ _ Hnodup Hlt)
      as (Hnodup' & Hlt').
    assert (Asleep start build ∈ tasks) as Hin
      by (eapply list_elem_of_lookup_2; exact Hi).
    split.
    + split; [auto|]. split; [|split].
      * eapply sublist_NoDup; [exact Htasks|].
        apply fmap_sublist, sublist_delete.
      * apply Forall_delete. exact Htlt.
      * intros t0 r' Ht Hr' Hsame.
        apply list_elem_of_fmap in Hr' as (r & -> & Hr).
        rewrite sql_update_status_ID in Hsame.
        apply elem_of_delete_other in Ht as (j & Hne & Hj).
        pose proof (keys_apart (fun t => ID (task_build t)) _ _ _ _ _
                      Htasks Hj Hi Hne) as Hkeys. simpl in Hkeys.
        rewrite sql_update_status_miss by congruence.
        apply Hstatus; [|exact Hr|exact Hsame].
        eapply list_elem_of_lookup_2; exact Hj.
    + intros j r Hr. eexists. rewrite list_lookup_fmap, Hr.
      split; [reflexivity|]. apply sql_update_status_advances.
      destruct (Z.eq_dec (ID r) (ID build)) as [Heq|Hne]; [|auto].
      right. left. split; [|exact Hst].
      apply (Hstatus (Asleep start build) r); auto.
      eapply list_elem_of_lookup_2; exact Hr.
Qed.

(** X21. On the PostgreSQL store, with each task run in two steps and
    requests served and other tasks run while it sleeps, in whatever order
    the turns are taken: no row is removed or moved, and each row only moves
    on.  Its identifier, project name, git URL, branch and creation time
    stay; a row with a terminal status stays exactly as it is; a "queued"
    row stays or goes to "running", "success" or "failed"; a "running" row
    stays or goes to "success" or "failed". *)
Theorem interleaving_rows_only_advance (ts : list Turn)
    (s : World PostgreSQLDatabase * list Task) (i : nat)
    (r : BuildRequest) :
  coherent s ->
  builds (db (fst s)) !! i = Some r ->
  coherent (interleave ts s)
  /\ exists r',
       builds (db (fst (interleave ts s))) !! i = Some r'
       /\ advances r r'
       /\ (is_terminal (Status r) = true -> r' = r).
Proof.
  intros Hs Hr.
  cut (coherent (interleave ts s)
       /\ exists r', builds (db (fst (interleave ts s))) !! i = Some r'
                     /\ advances r r').
  { intros (Hco & r' & Hr' & Hadv). split; [exact Hco|].
    exists r'. split; [exact Hr'|]. split; [exact Hadv|]. intros Hterm.
    destruct Hadv as (_ & _ & _ & _ & _ & Hkeep & _).
    apply Hkeep; intros Hq; rewrite Hq in Hterm; discriminate. }
  unfold interleave. revert s r Hs Hr.
  induction ts as [|t ts IH]; intros s r Hs Hr; cbn [foldl].
  - split; [exact Hs|]. exists r. split; [exact Hr | apply advances_refl].
  - destruct (turn_step t s Hs) as (Hs1 & Hrows).
    destruct (Hrows i r Hr) as (r1 & Hr1 & Hadv1).
    destruct (IH _ r1 Hs1 Hr1) as (Hco & r' & Hr' & Hadv').
    split; [exact Hco|]. exists r'. split; [exact Hr'|].
    eapply advances_trans; eassumption.
Qed.

Lemma interleaving_rows_only_advance_witness :
  let done := mkBuildRequest 1 "demo" "https://x/y.git" "main" "success" 0 9 in
  let turns :=
    [Posted (Some Sample.demo); Advance 0; Fetched {["id" := "2"]};
     Posted (Some Sample.demo); Advance 0; Advance 0; Advance 0] in
  exists r',
    builds (db (fst (interleave turns (restarted done, [])))) !! 0%nat
    = Some r'
    /\ r' = done.
Proof.
  intros done turns.
  destruct (interleaving_rows_only_advance turns (restarted done, []) 0 done)
    as (_ & r' & Hr' & _ & Hkeep).
  - split; [|split; [|split]]; simpl.
    + split; simpl; [apply NoDup_singleton|].
      apply Forall_singleton. simpl. lia.
    + apply NoDup_nil. exact I.
    + apply Forall_nil. exact I.
    + intros t r Ht. apply elem_of_nil in Ht. contradiction.
  - reflexivity.
  - exists r'. split; [exact Hr' | apply Hkeep; reflexivity].
Defined.

(** While the task of a build sleeps, a request sees its row "running". *)
Example fetch_while_asleep :
  let s := interleave [Posted (Some Sample.demo); Advance 0]
             (Sample.world [] Sample.accepting, []) in
  snd s = [Asleep 2 (mkBuildRequest 1 "demo" "https://x/y.git" "main"
                       "running" 0 3)]
  /\ fst (getBuildHandler {["id" := "1"]} (fst s))
     = mkResponse StatusOK "application/json"
         (JsonBuild (mkBuildRequest 1 "demo" "https://x/y.git" "main"
                       "running" 0 1000)).
Proof. split; reflexivity. Qed.
